(** * Tenant isolation and plan entitlement engine

    A shallow embedding of the policy layer of the multi-tenant backend:

    - [Js]          the JavaScript data values the middleware reads and mutates;
    - [Schema]      the rows and the request fields the middlewares read;
    - [PlanAccess]  the plan tables and the three entitlement middlewares
                    (the module the routes import as middleware/planAccess,
                    second unit of server/src/middleware/errorHandler.ts);
    - [Tenant]      server/src/middleware/tenant.ts: the Express tenant
                    middleware and the Prisma interceptor it installs;
    - [Audit]       server/src/utils/AppError.ts: [createAuditLog];
    - [ErrorHandler], [Utils], [Auth], [App], [Admin], [ClientAuth],
      [AuthRoutes]  the error handler, the other helpers of AppError.ts,
                    the authentication middlewares, the protected routes
                    of the application, the administration routes, the
                    checks of the client's authentication hook, and the
                    login and registration handlers.

    Numbers are JavaScript doubles in the program; every number the policy
    layer handles is an integer far below 2^53, so they are modelled in [Z].
    Dates are modelled by their epoch milliseconds. *)

From Stdlib Require Import ZArith List String Ascii Bool Lia.
Import ListNotations.

Local Open Scope string_scope.
Local Open Scope Z_scope.

Set Warnings "-register-all".

(* ===================================================================== *)
(** ** JavaScript values *)
(* ===================================================================== *)

Module Js.

(** Data values.  Objects keep their properties in insertion order, as
    [Object.entries] and [JSON.stringify] see them.  An array and a [Date]
    are objects too and can carry named properties besides their content. *)
Inductive JsVal : Type :=
| JUndefined
| JNull
| JBool (b : bool)
| JNum (n : Z)
| JStr (s : string)
| JDate (ms : Z) (props : list (string * JsVal))
| JObj (props : list (string * JsVal))
| JArr (elems : list JsVal) (props : list (string * JsVal)).

Definition Props := list (string * JsVal).

(** What a [try] block can catch. *)
Inductive Error : Type :=
| TypeError (msg : string)
| AppError (message : string) (statusCode : Z)
| OtherError (msg : string).

Inductive Result (A : Type) : Type :=
| Ok (a : A)
| Throw (e : Error).
Arguments Ok {A} a.
Arguments Throw {A} e.

Definition bind {A B} (r : Result A) (k : A -> Result B) : Result B :=
  match r with
  | Ok a => k a
  | Throw e => Throw e
  end.

Notation "'do' x <- r ; k" := (bind r (fun x => k))
  (at level 10, x name, r at level 100, k at level 200).

Fixpoint lookup (k : string) (ps : Props) : option JsVal :=
  match ps with
  | [] => None
  | (k', v) :: rest => if String.eqb k k' then Some v else lookup k rest
  end.

(** [o[k] = v] on the own properties of an object: an existing key keeps
    its place, a new key goes last. *)
Fixpoint assign (k : string) (v : JsVal) (ps : Props) : Props :=
  match ps with
  | [] => [(k, v)]
  | (k', v') :: rest =>
      if String.eqb k k' then (k, v) :: rest else (k', v') :: assign k v rest
  end.

(** JavaScript truthiness ([!x] is its negation). *)
Definition truthy (v : JsVal) : bool :=
  match v with
  | JUndefined | JNull => false
  | JBool b => b
  | JNum n => negb (n =? 0)
  | JStr s => negb (String.eqb s "")
  | JDate _ _ | JObj _ | JArr _ _ => true
  end.

(** [o.k] for a key that is neither an array index nor a built-in member
    (the middleware reads only [where], [data] and [tenantId]). *)
Definition get (o : JsVal) (k : string) : Result JsVal :=
  match o with
  | JUndefined | JNull => Throw (TypeError "Cannot read properties of undefined")
  | JBool _ | JNum _ | JStr _ => Ok JUndefined
  | JDate _ ps | JObj ps | JArr _ ps =>
      Ok (match lookup k ps with Some v => v | None => JUndefined end)
  end.

(** [o[k] = v] (strict mode, as TypeScript modules are compiled): an
    object, array or date gains or replaces the own property; anything else
    throws. *)
Definition set (o : JsVal) (k : string) (v : JsVal) : Result JsVal :=
  match o with
  | JUndefined | JNull => Throw (TypeError "Cannot set properties of undefined")
  | JBool _ | JNum _ | JStr _ => Throw (TypeError "Cannot create property")
  | JDate ms ps => Ok (JDate ms (assign k v ps))
  | JObj ps => Ok (JObj (assign k v ps))
  | JArr es ps => Ok (JArr es (assign k v ps))
  end.

(** [xs.includes(x)] on an array of strings. *)
Fixpoint includes (xs : list string) (x : string) : bool :=
  match xs with
  | [] => false
  | y :: rest => String.eqb y x || includes rest x
  end.

End Js.

Import Js.

(* ===================================================================== *)
(** ** The data store and the request, as far as the policy layer reads them *)
(* ===================================================================== *)

Module Schema.

(** Prisma enum [PlanType]. *)
Inductive PlanType : Type := SIMPLE | COMPOSITE | MANAGERIAL.

Definition planName (p : PlanType) : string :=
  match p with
  | SIMPLE => "SIMPLE"
  | COMPOSITE => "COMPOSITE"
  | MANAGERIAL => "MANAGERIAL"
  end.

(** A row of [tenant] with the columns the middlewares select. *)
Record TenantRow : Type := mkTenant {
  id : string;
  planType : PlanType;
  isActive : bool;
  expiresAt : option Z
}.

(** Rows of the counted tables are kept by their [tenantId] column; a file
    row also has its nullable [size].  [online = false] makes every query
    reject, which the middlewares' [catch] turns into a 500. *)
Record Db : Type := mkDb {
  online : bool;
  tenantRows : list TenantRow;
  userRows : list string;
  clientRows : list string;
  projectRows : list string;
  fileRows : list (string * option Z)
}.

Definition query {A} (db : Db) (a : A) : Result A :=
  if online db then Ok a else Throw (OtherError "database unavailable").

(** [prisma.tenant.findUnique({ where: { id } })] *)
Definition tenant_findUnique (db : Db) (tid : string) : Result (option TenantRow) :=
  query db (find (fun t => String.eqb (id t) tid) (tenantRows db)).

(** [prisma.X.count({ where: { tenantId } })] on a table given by its
    [tenantId] column. *)
Definition countWhere (rows : list string) (tid : string) : Z :=
  Z.of_nat (List.length (filter (fun t => String.eqb t tid) rows)).

(** [prisma.file.findMany({ where: { tenantId }, select: { size: true } })] *)
Definition file_findMany (db : Db) (tid : string) : Result (list (option Z)) :=
  query db (map snd (filter (fun f => String.eqb (fst f) tid) (fileRows db))).

(** [files.reduce((total, file) => total + (file.size || 0), 0)] *)
Definition storageUsed (files : list (option Z)) : Z :=
  fold_left (fun total size =>
               total + match size with
                       | Some s => s
                       | None => 0
                       end) files 0.

(** *** Requests *)

(** [req.user], as the authentication middleware fills it. *)
Record UserInfo : Type := mkUser {
  userId : string;
  tenantId : string;
  accountType : string
}.

(** The part of [AuthenticatedRequest] the middlewares touch. *)
Record Request : Type := mkReq {
  user : option UserInfo;
  tenant : option TenantRow
}.

End Schema.

Import Schema.

(* ===================================================================== *)
(** ** Plan tables and entitlement middlewares (middleware/planAccess) *)
(* ===================================================================== *)

Module PlanAccess.

(** The keys of the three tables, in the order the object literals list
    them: the order of [Object.entries]. *)
Definition planKeys : list PlanType := [SIMPLE; COMPOSITE; MANAGERIAL].

Definition PLAN_LEVELS (p : PlanType) : Z :=
  match p with
  | SIMPLE => 1
  | COMPOSITE => 2
  | MANAGERIAL => 3
  end.

Definition PLAN_MODULES (p : PlanType) : list string :=
  match p with
  | SIMPLE =>
      ["dashboard"; "crm"; "clients"; "basic_reports"]
  | COMPOSITE =>
      ["dashboard"; "crm"; "clients"; "projects"; "tasks"; "basic_reports";
       "project_reports"; "file_management"]
  | MANAGERIAL =>
      ["dashboard"; "crm"; "clients"; "projects"; "tasks"; "billing";
       "invoices"; "cash_flow"; "transactions"; "advanced_reports";
       "analytics"; "file_management"; "audit_logs"; "user_management"]
  end.

(** [keyof typeof PLAN_LIMITS.SIMPLE.features] *)
Inductive Feature : Type := projects | billing | advanced_reports | api_access.

Definition featureName (f : Feature) : string :=
  match f with
  | projects => "projects"
  | billing => "billing"
  | advanced_reports => "advanced_reports"
  | api_access => "api_access"
  end.

Definition allFeatures : list Feature :=
  [projects; billing; advanced_reports; api_access].

Record Limits : Type := mkLimits {
  maxUsers : Z;
  maxClients : Z;
  maxProjects : Z;
  maxStorage : Z;
  features : Feature -> bool
}.

Definition PLAN_LIMITS (p : PlanType) : Limits :=
  match p with
  | SIMPLE =>
      {| maxUsers := 3;
         maxClients := 50;
         maxProjects := 0;
         maxStorage := 1024 * 1024 * 100;
         features := fun f =>
           match f with
           | projects => false
           | billing => false
           | advanced_reports => false
           | api_access => false
           end |}
  | COMPOSITE =>
      {| maxUsers := 10;
         maxClients := 200;
         maxProjects := 100;
         maxStorage := 1024 * 1024 * 500;
         features := fun f =>
           match f with
           | projects => true
           | billing => false
           | advanced_reports => false
           | api_access => true
           end |}
  | MANAGERIAL =>
      {| maxUsers := -1;
         maxClients := -1;
         maxProjects := -1;
         maxStorage := 1024 * 1024 * 1024 * 5;
         features := fun f =>
           match f with
           | projects => true
           | billing => true
           | advanced_reports => true
           | api_access => true
           end |}
  end.

(** The resource kinds [checkPlanLimits] accepts. *)
Inductive ResourceType : Type := users | clients | projectsRes | storage.

Definition resourceName (r : ResourceType) : string :=
  match r with
  | users => "users"
  | clients => "clients"
  | projectsRes => "projects"
  | storage => "storage"
  end.

(** *** Responses *)

(** How a middleware ends: [res.status(s).json(body)], or [next()] with the
    request as it has left it. *)
Inductive Outcome : Type :=
| Respond (status : Z) (body : Props)
| Next (req : Request).

Definition jsPlans (ps : list PlanType) : JsVal :=
  JArr (map (fun p => JStr (planName p)) ps) [].

Definition jsStrings (xs : list string) : JsVal :=
  JArr (map JStr xs) [].

Definition getSuggestedPlans (requiredModule : string) : list PlanType :=
  filter (fun plan => includes (PLAN_MODULES plan) requiredModule) planKeys.

Definition getSuggestedPlansForLimit (resourceType : ResourceType)
    (currentPlan : PlanType) : list PlanType :=
  let currentLevel := PLAN_LEVELS currentPlan in
  filter (fun plan => PLAN_LEVELS plan >? currentLevel) planKeys.

Definition getSuggestedPlansForFeature (feature : Feature) : list PlanType :=
  filter (fun plan => features (PLAN_LIMITS plan) feature) planKeys.

Definition internalError : Outcome :=
  Respond 500 [("error", JStr "Erro interno do servidor");
               ("code", JStr "INTERNAL_ERROR")].

(** [try { ... } catch (error) { res.status(500)... }] *)
Definition catch500 (r : Result Outcome) : Outcome :=
  match r with
  | Ok o => o
  | Throw _ => internalError
  end.

(** [tenant.expiresAt && new Date() > tenant.expiresAt] *)
Definition expired (now : Z) (t : TenantRow) : bool :=
  match expiresAt t with
  | Some e => now >? e
  | None => false
  end.

Definition jsExpiresAt (t : TenantRow) : JsVal :=
  match expiresAt t with
  | Some e => JDate e []
  | None => JNull
  end.

(** [req.user?.tenantId], with [None] for a missing or empty (falsy) id. *)
Definition userTenantId (req : Request) : option string :=
  match user req with
  | Some u => if String.eqb (tenantId u) "" then None else Some (tenantId u)
  | None => None
  end.

Definition checkPlanAccess (requiredModule : string)
    (db : Db) (now : Z) (req : Request) : Outcome :=
  catch500 (
    match userTenantId req with
    | None =>
        Ok (Respond 401 [("error", JStr "Token de autenticação inválido");
                         ("code", JStr "INVALID_TOKEN")])
    | Some tenantId =>
        do found <- tenant_findUnique db tenantId;
        match found with
        | None =>
            Ok (Respond 404 [("error", JStr "Empresa não encontrada");
                             ("code", JStr "TENANT_NOT_FOUND")])
        | Some tenant =>
            if negb (isActive tenant) then
              Ok (Respond 403 [("error", JStr "Conta da empresa está inativa");
                               ("code", JStr "TENANT_INACTIVE")])
            else if expired now tenant then
              Ok (Respond 403 [("error", JStr "Plano da empresa expirou");
                               ("code", JStr "PLAN_EXPIRED");
                               ("expiresAt", jsExpiresAt tenant)])
            else
              let allowedModules := PLAN_MODULES (planType tenant) in
              if negb (includes allowedModules requiredModule) then
                Ok (Respond 403
                      [("error", JStr ("Acesso negado. O plano "
                                       ++ planName (planType tenant)
                                       ++ " não inclui o módulo '"
                                       ++ requiredModule ++ "'"));
                       ("code", JStr "PLAN_ACCESS_DENIED");
                       ("currentPlan", JStr (planName (planType tenant)));
                       ("requiredModule", JStr requiredModule);
                       ("allowedModules", jsStrings allowedModules);
                       ("suggestedPlans",
                        jsPlans (getSuggestedPlans requiredModule))])
              else
                Ok (Next {| user := user req; tenant := Some tenant |})
        end
    end).

(** The ceiling and the current count the [switch] of [checkPlanLimits]
    picks for a resource kind. *)
Definition maxAllowedFor (limits : Limits) (resourceType : ResourceType) : Z :=
  match resourceType with
  | users => maxUsers limits
  | clients => maxClients limits
  | projectsRes => maxProjects limits
  | storage => maxStorage limits
  end.

Definition currentCountFor (db : Db) (tenantId : string)
    (resourceType : ResourceType) : Result Z :=
  match resourceType with
  | users => query db (countWhere (userRows db) tenantId)
  | clients => query db (countWhere (clientRows db) tenantId)
  | projectsRes => query db (countWhere (projectRows db) tenantId)
  | storage => do files <- file_findMany db tenantId; Ok (storageUsed files)
  end.

(** [checkPlanLimits] over a table of limits; the program's middleware is
    its instance at [PLAN_LIMITS]. *)
Definition checkPlanLimitsWith (table : PlanType -> Limits)
    (resourceType : ResourceType) (db : Db) (req : Request) : Outcome :=
  catch500 (
    match tenant req, userTenantId req with
    | Some tenant, Some tenantId =>
        let limits := table (planType tenant) in
        do currentCount <- currentCountFor db tenantId resourceType;
        let maxAllowed := maxAllowedFor limits resourceType in
        if negb (maxAllowed =? -1) && (currentCount >=? maxAllowed) then
          Ok (Respond 403
                [("error", JStr ("Limite do plano atingido para "
                                 ++ resourceName resourceType));
                 ("code", JStr "PLAN_LIMIT_EXCEEDED");
                 ("currentPlan", JStr (planName (planType tenant)));
                 ("resourceType", JStr (resourceName resourceType));
                 ("currentCount", JNum currentCount);
                 ("maxAllowed", JNum maxAllowed);
                 ("suggestedPlans",
                  jsPlans (getSuggestedPlansForLimit resourceType
                             (planType tenant)))])
        else
          Ok (Next req)
    | _, _ =>
        Ok (Respond 401 [("error", JStr "Informações de autenticação inválidas");
                         ("code", JStr "INVALID_AUTH")])
    end).

Definition checkPlanLimits : ResourceType -> Db -> Request -> Outcome :=
  checkPlanLimitsWith PLAN_LIMITS.

Definition checkPlanFeature (feature : Feature) (req : Request) : Outcome :=
  catch500 (
    match tenant req with
    | None =>
        Ok (Respond 401 [("error", JStr "Informações de autenticação inválidas");
                         ("code", JStr "INVALID_AUTH")])
    | Some tenant =>
        let limits := PLAN_LIMITS (planType tenant) in
        if negb (features limits feature) then
          Ok (Respond 403
                [("error", JStr ("Feature '" ++ featureName feature
                                 ++ "' não disponível no plano "
                                 ++ planName (planType tenant)));
                 ("code", JStr "FEATURE_NOT_AVAILABLE");
                 ("currentPlan", JStr (planName (planType tenant)));
                 ("feature", JStr (featureName feature));
                 ("suggestedPlans",
                  jsPlans (getSuggestedPlansForFeature feature))])
        else
          Ok (Next req)
    end).

Definition canAccessModule (planType : PlanType) (module : string) : bool :=
  includes (PLAN_MODULES planType) module.

Definition hasFeature (planType : PlanType) (feature : Feature) : bool :=
  features (PLAN_LIMITS planType) feature.

(** The [code] field of a response body. *)
Definition codeOf (o : Outcome) : option JsVal :=
  match o with
  | Respond _ body => lookup "code" body
  | Next _ => None
  end.

Definition field (name : string) (o : Outcome) : option JsVal :=
  match o with
  | Respond _ body => lookup name body
  | Next _ => None
  end.

End PlanAccess.

(* ===================================================================== *)
(** ** Tenant middleware and Prisma interceptor (middleware/tenant.ts) *)
(* ===================================================================== *)

Module Tenant.

(** [params] of a Prisma middleware: the model and action of the intended
    operation and the arguments the caller passed ([undefined] when the
    call had none). *)
Record Params : Type := mkParams {
  model : option string;
  action : string;
  args : JsVal
}.

(** Lista de modelos que devem ter o tenant ID *)
Definition tenantModels : list string :=
  ["User"; "Client"; "Project"; "Task"; "Invoice"; "Transaction"; "AuditLog"].

(** [tenantModels.includes(params.model)] *)
Definition isTenantModel (m : option string) : bool :=
  match m with
  | Some name => includes tenantModels name
  | None => false
  end.

Definition withArgs (params : Params) (a : JsVal) : Params :=
  {| model := model params; action := action params; args := a |}.

(** [params.args.where['tenantId'] = tenantId]: the object under [where] is
    mutated in place, so [args.where] shows the new property. *)
Definition setWhereTenant (tenantId : string) (a : JsVal) : Result JsVal :=
  do w <- get a "where";
  do w' <- set w "tenantId" (JStr tenantId);
  set a "where" w'.

(** [if (!params.args.where) params.args.where = {}] *)
Definition ensureWhere (a : JsVal) : Result JsVal :=
  do w <- get a "where";
  if negb (truthy w) then set a "where" (JObj []) else Ok a.

(** [if (params.args.data) { params.args.data['tenantId'] = tenantId }] *)
Definition setDataTenant (tenantId : string) (a : JsVal) : Result JsVal :=
  do d <- get a "data";
  if truthy d then
    do d' <- set d "tenantId" (JStr tenantId);
    set a "data" d'
  else Ok a.

Definition isAction (params : Params) (name : string) : bool :=
  String.eqb (action params) name.

(** The function [tenantMiddleware] passes to [prisma.$use], closed over
    the request's [tenantId]; its result is what it hands to [next]. *)
Definition interceptor (tenantId : string) (params : Params) : Result Params :=
  if isTenantModel (model params) then
    if isAction params "findUnique" || isAction params "findFirst" then
      do a <- setWhereTenant tenantId (args params);
      Ok (withArgs params a)
    else if isAction params "findMany" then
      let a0 := if negb (truthy (args params))
                then JObj [("where", JObj [])] else args params in
      do a1 <- ensureWhere a0;
      do a2 <- setWhereTenant tenantId a1;
      Ok (withArgs params a2)
    else if isAction params "create" || isAction params "createMany" then
      do a <- setDataTenant tenantId (args params);
      Ok (withArgs params a)
    else if isAction params "update" || isAction params "updateMany" then
      do a1 <- ensureWhere (args params);
      do a2 <- setWhereTenant tenantId a1;
      Ok (withArgs params a2)
    else if isAction params "delete" || isAction params "deleteMany" then
      do a1 <- ensureWhere (args params);
      do a2 <- setWhereTenant tenantId a1;
      Ok (withArgs params a2)
    else Ok params
  else Ok params.

(** The module-level [prisma] client of tenant.ts: the interceptors
    installed on it so far, each given by the tenant id it closed over, in
    the order of the [$use] calls. *)
Definition Client := list string.

(** [prisma.$use(f)] *)
Definition use (client : Client) (tenantId : string) : Client :=
  (client ++ [tenantId])%list.

(** A query issued on the client: Prisma runs the installed middlewares in
    the order they were added, each handing its [params] to the next; the
    result is the operation the query engine executes. *)
Fixpoint runQuery (client : Client) (params : Params) : Result Params :=
  match client with
  | [] => Ok params
  | tenantId :: rest =>
      do params' <- interceptor tenantId params;
      runQuery rest params'
  end.

(** How the Express middleware ends: [next()] or [next(error)]. *)
Inductive Passed : Type :=
| NextOk
| NextError (e : Error).

(** [tenant.expiresAt && tenant.expiresAt < new Date()] *)
Definition lapsed (now : Z) (t : TenantRow) : bool :=
  match expiresAt t with
  | Some e => e <? now
  | None => false
  end.

Definition tenantMiddlewareBody (db : Db) (now : Z) (req : Request)
    (client : Client) : Result Client :=
  match PlanAccess.userTenantId req with
  | None => Throw (AppError "Tenant ID não encontrado" 401)
  | Some tenantId =>
      do found <- tenant_findUnique db tenantId;
      match found with
      | None => Throw (AppError "Tenant não encontrado" 404)
      | Some tenant =>
          if negb (isActive tenant) then Throw (AppError "Tenant inativo" 403)
          else if lapsed now tenant then
            Throw (AppError "Assinatura expirada" 403)
          else Ok (use client tenantId)
      end
  end.

(** [tenantMiddleware]: the state of the shared client after the call and
    the way the request goes on. *)
Definition tenantMiddleware (db : Db) (now : Z) (req : Request)
    (client : Client) : Client * Passed :=
  match tenantMiddlewareBody db now req client with
  | Ok client' => (client', NextOk)
  | Throw e => (client, NextError e)
  end.

(** The requests that have entered [app.use('/api', tenantMiddleware)] so
    far, oldest first; handlers are asynchronous, so a request may still be
    running when later ones enter. *)
Definition enterAll (db : Db) (now : Z) (reqs : list Request)
    (client : Client) : Client :=
  fold_left (fun c req => fst (tenantMiddleware db now req c)) reqs client.

(** The tenant id a rewritten operation carries in its filter criteria and
    in its record payload. *)
Definition whereTenant (params : Params) : Result JsVal :=
  do w <- get (args params) "where"; get w "tenantId".

Definition dataTenant (params : Params) : Result JsVal :=
  do d <- get (args params) "data"; get d "tenantId".

(** The records of a [create] or [createMany] payload: [data] is one
    record or an array of records. *)
Definition dataRecords (params : Params) : list JsVal :=
  match get (args params) "data" with
  | Ok (JArr records _) => records
  | Ok d => [d]
  | Throw _ => []
  end.

Definition recordTenant (record : JsVal) : Result JsVal :=
  get record "tenantId".

(** The actions whose filter criteria the interceptor rewrites. *)
Definition whereActions : list string :=
  ["findUnique"; "findFirst"; "findMany"; "update"; "updateMany";
   "delete"; "deleteMany"].

End Tenant.

(* ===================================================================== *)
(** ** Audit recorder (utils/AppError.ts) *)
(* ===================================================================== *)

Module Audit.

(** The [data] of [prisma.auditLog.create]; [details] is [JUndefined] when
    the caller leaves it out. *)
Record AuditEntry : Type := mkEntry {
  userId : string;
  tenantId : string;
  action : string;
  resourceType : string;
  resourceId : string;
  details : JsVal
}.

(** What an asynchronous step can touch: the store behind the Prisma
    client, of any shape [S], and the process console. *)
Record World (S : Type) : Type := mkWorld {
  store : S;
  console : list (string * Error)
}.
Arguments mkWorld {S} store console.
Arguments store {S} w.
Arguments console {S} w.

(** An awaited computation: it resolves or rejects and leaves a world. *)
Definition Async (S A : Type) : Type := World S -> Result A * World S.

Definition ret {S A} (a : A) : Async S A := fun w => (Ok a, w).

Definition andThen {S A B} (m : Async S A) (k : A -> Async S B) : Async S B :=
  fun w =>
    match m w with
    | (Ok a, w') => k a w'
    | (Throw e, w') => (Throw e, w')
    end.

(** [try { await m } catch (error) { handler(error) }] *)
Definition tryCatch {S A} (m : Async S A) (handler : Error -> Async S A)
  : Async S A :=
  fun w =>
    match m w with
    | (Ok a, w') => (Ok a, w')
    | (Throw e, w') => handler e w'
    end.

(** [console.error(msg, error)] *)
Definition consoleError {S} (msg : string) (e : Error) : Async S unit :=
  fun w => (Ok tt, {| store := store w; console := (console w ++ [(msg, e)])%list |}).

(** [prisma: any]: the client handed in, of which only
    [auditLog.create] is called. *)
Definition PrismaClient (S : Type) : Type := AuditEntry -> Async S unit.

Definition createAuditLog {S} (prisma : PrismaClient S)
    (userId tenantId action resourceType resourceId : string)
    (details : JsVal) : Async S unit :=
  tryCatch
    (prisma {| userId := userId; tenantId := tenantId; action := action;
               resourceType := resourceType; resourceId := resourceId;
               details := details |})
    (fun error => consoleError "Erro ao criar log de auditoria:" error).

(** A client over a store that is a list of audit rows: [create] appends
    the row when the storage is reachable and rejects otherwise. *)
Definition listClient (reachable : bool) : PrismaClient (list AuditEntry) :=
  fun entry w =>
    if reachable
    then (Ok tt, {| store := (store w ++ [entry])%list; console := console w |})
    else (Throw (OtherError "storage unavailable"), w).

(** The shape the creating routes of routes/tenant.routes.ts share:
    the business insert, then the audit record, then the 201 answer
    carrying the inserted row. *)
Definition auditedCreate {S} (insert : Async S JsVal)
    (prisma : PrismaClient S) (userId tenantId action resourceType : string)
    (idOf : JsVal -> string) : Async S (Z * JsVal) :=
  andThen insert (fun row =>
  andThen (createAuditLog prisma userId tenantId action resourceType
             (idOf row) JUndefined) (fun _ =>
  ret (201, row))).

End Audit.

(* ===================================================================== *)
(** ** Route chains (routes/tenant.routes.ts) *)
(* ===================================================================== *)

Module Routes.

Import PlanAccess.

(** Express runs the middlewares of a route in order; one that responds
    ends the request, one that calls [next()] hands the request on. *)
Fixpoint chain (mws : list (Request -> Outcome)) (req : Request) : Outcome :=
  match mws with
  | [] => Next req
  | mw :: rest =>
      match mw req with
      | Next req' => chain rest req'
      | Respond status body => Respond status body
      end
  end.

(** [router.post('/clients', checkPlanAccess('clients'),
                 checkPlanLimits('clients'), ...)] *)
Definition postClients (db : Db) (now : Z) : Request -> Outcome :=
  chain [checkPlanAccess "clients" db now; checkPlanLimits clients db].

(** [router.post('/projects', checkPlanAccess('projects'),
                 checkPlanLimits('projects'), ...)] *)
Definition postProjects (db : Db) (now : Z) : Request -> Outcome :=
  chain [checkPlanAccess "projects" db now; checkPlanLimits projectsRes db].

End Routes.

(* ===================================================================== *)
(** ** The denial payloads the specification lists *)
(* ===================================================================== *)

(** The [code] values of the denial payload shapes of the specification's
    external-interface section, in its order. *)
Definition spec_denial_codes : list string :=
  ["INVALID_TOKEN"; "TENANT_INACTIVE"; "PLAN_EXPIRED"; "PLAN_ACCESS_DENIED";
   "PLAN_LIMIT_EXCEEDED"; "FEATURE_NOT_AVAILABLE"; "TENANT_NOT_FOUND"].

(* ===================================================================== *)
(** ** Sample data *)
(* ===================================================================== *)

Module Samples.

Import PlanAccess Tenant.

Definition simpleTenant : TenantRow := mkTenant "tenant-1" SIMPLE true None.

Definition inactiveTenant : TenantRow := mkTenant "tenant-1" SIMPLE false None.

(** Expired one second before the clock value 2000 used with it. *)
Definition expiredTenant : TenantRow :=
  mkTenant "tenant-1" MANAGERIAL true (Some 1000).

Definition alice : UserInfo := mkUser "user-1" "tenant-1" "SIMPLE".

(** A reachable store with one tenant row and that many client rows of the
    tenant. *)
Definition dbWith (t : TenantRow) (clientCount : nat) : Db :=
  mkDb true [t] ["tenant-1"] (repeat "tenant-1" clientCount) [] [].

(** The request as the authentication middleware leaves it, and as it is
    once a tenant snapshot has been attached. *)
Definition authenticated : Request := mkReq (Some alice) None.

Definition withSnapshot (t : TenantRow) : Request := mkReq (Some alice) (Some t).

(** Two tenants with one user each, for the interceptor. *)
Definition tenantA : TenantRow := mkTenant "tenant-A" COMPOSITE true None.
Definition tenantB : TenantRow := mkTenant "tenant-B" COMPOSITE true None.

Definition twoTenants : Db := mkDb true [tenantA; tenantB] [] [] [] [].

Definition requestOfA : Request :=
  mkReq (Some (mkUser "user-A" "tenant-A" "COMPOSITE")) None.

Definition requestOfB : Request :=
  mkReq (Some (mkUser "user-B" "tenant-B" "COMPOSITE")) None.

(** [prisma.client.findMany({ where: {} })] *)
Definition findManyClients : Params :=
  mkParams (Some "Client") "findMany" (JObj [("where", JObj [])]).

(** [prisma.client.createMany({ data: [{ name: 'Acme', tenantId: 'tenant-B' }] })] *)
Definition createManyClients : Params :=
  mkParams (Some "Client") "createMany"
    (JObj [("data",
            JArr [JObj [("name", JStr "Acme");
                        ("tenantId", JStr "tenant-B")]] [])]).

(** [prisma.file.findMany({ where: { tenantId: 'tenant-B' } })] *)
Definition findManyFiles : Params :=
  mkParams (Some "File") "findMany"
    (JObj [("where", JObj [("tenantId", JStr "tenant-B")])]).

End Samples.

(* ===================================================================== *)
(** ** Error handler (middleware/errorHandler.ts) *)
(* ===================================================================== *)

Module ErrorHandler.

(** What [instanceof] tells about a thrown error. *)
Inductive ErrorClass : Type :=
| AppErrorClass (statusCode : Z)
| ZodErrorClass (errors : JsVal)
| OtherClass.

(** A thrown [Error] with the members the handler reads; [metaTarget] is
    [error.meta?.target]. *)
Record Thrown : Type := mkThrown {
  cls : ErrorClass;
  name : string;
  message : string;
  code : JsVal;
  metaTarget : JsVal
}.

Definition isP2002 (code : JsVal) : bool :=
  match code with
  | JStr s => String.eqb s "P2002"
  | _ => false
  end.

Definition isDevelopment (nodeEnv : option string) : bool :=
  match nodeEnv with
  | Some env => String.eqb env "development"
  | None => false
  end.

(** [errorHandler]: the status and body it answers with, and the console
    after it ([NODE_ENV] is [nodeEnv]). *)
Definition errorHandler (nodeEnv : option string) (error : Thrown)
    (console : list Thrown) : (Z * Props) * list Thrown :=
  match cls error with
  | AppErrorClass statusCode =>
      ((statusCode, [("status", JStr "error");
                     ("message", JStr (message error))]), console)
  | _ =>
      if String.eqb (name error) "PrismaClientValidationError" then
        ((400, [("status", JStr "error");
                ("message", JStr "Erro de validação nos dados");
                ("details", JStr (message error))]), console)
      else if String.eqb (name error) "PrismaClientKnownRequestError"
              && isP2002 (code error) then
        ((409, [("status", JStr "error");
                ("message", JStr "Registro duplicado encontrado");
                ("field", metaTarget error)]), console)
      else
        match cls error with
        | ZodErrorClass errors =>
            ((400, [("status", JStr "error");
                    ("message", JStr "Erro de validação");
                    ("details", errors)]), console)
        | _ =>
            ((500, [("status", JStr "error");
                    ("message", JStr "Erro interno do servidor")]),
             if isDevelopment nodeEnv then (console ++ [error])%list
             else console)
        end
  end.

(** The errors of the value model as thrown objects: [new AppError(m, s)]
    has the name AppError; the others are plain errors. *)
Definition thrownOf (e : Error) : Thrown :=
  match e with
  | AppError m s => mkThrown (AppErrorClass s) "AppError" m JUndefined JUndefined
  | TypeError m => mkThrown OtherClass "TypeError" m JUndefined JUndefined
  | OtherError m => mkThrown OtherClass "Error" m JUndefined JUndefined
  end.

(** The answer to [next(error)]. *)
Definition respondTo (nodeEnv : option string) (e : Error) : PlanAccess.Outcome :=
  let '(status, body) := fst (errorHandler nodeEnv (thrownOf e) []) in
  PlanAccess.Respond status body.

End ErrorHandler.

(* ===================================================================== *)
(** ** Helpers of utils/AppError.ts *)
(* ===================================================================== *)

Module Utils.

(** The members every plain object inherits from [Object.prototype]: each
    is a function, or for [__proto__] the prototype itself, so truthy. *)
Definition objectPrototypeMembers : list string :=
  ["constructor"; "__defineGetter__"; "__defineSetter__"; "hasOwnProperty";
   "__lookupGetter__"; "__lookupSetter__"; "isPrototypeOf";
   "propertyIsEnumerable"; "toString"; "valueOf"; "__proto__";
   "toLocaleString"].

(** [!obj[field]] on a plain object (one whose prototype is
    [Object.prototype], as an object literal or a parsed JSON body), given
    by its own properties: an own property decides by its value; a name
    that is no own property is looked up on the prototype, where it is
    found, truthy, exactly when it is one of the prototype's members. *)
Definition fieldMissing (obj : Props) (field : string) : bool :=
  match lookup field obj with
  | Some v => negb (truthy v)
  | None => negb (includes objectPrototypeMembers field)
  end.

(** [requiredFields.filter(field => !obj[field])] *)
Definition missingFields (obj : Props) (requiredFields : list string)
  : list string :=
  filter (fieldMissing obj) requiredFields.

(** [validateRequiredFields(obj, requiredFields)] on a plain object. *)
Definition validateRequiredFields (obj : Props) (requiredFields : list string)
  : Result unit :=
  let missing := missingFields obj requiredFields in
  if (0 <? Z.of_nat (List.length missing)) then
    Throw (AppError ("Campos obrigatórios ausentes: "
                     ++ String.concat ", " missing) 400)
  else Ok tt.

(** [delete o[field]] on the own properties. *)
Definition deleteProp (field : string) (ps : Props) : Props :=
  filter (fun p => negb (String.eqb (fst p) field)) ps.

(** [sanitizeOutput(data, excludeFields)]: a copy of the own properties of
    [data], the excluded ones deleted. *)
Definition sanitizeOutput (data : Props) (excludeFields : list string) : Props :=
  fold_left (fun sanitized field => deleteProp field sanitized)
    excludeFields data.

(** [sanitizeOutput(data)] with the default [excludeFields]. *)
Definition sanitizeOutputDefault (data : Props) : Props :=
  sanitizeOutput data ["passwordHash"].

End Utils.

(* ===================================================================== *)
(** ** Authentication middlewares (middleware/auth.ts) *)
(* ===================================================================== *)

Module Auth.

(** [s.split(sep)] for a one-character separator. *)
Fixpoint split (sep : Ascii.ascii) (s : string) : list string :=
  match s with
  | EmptyString => [EmptyString]
  | String c rest =>
      if Ascii.eqb c sep then EmptyString :: split sep rest
      else match split sep rest with
           | piece :: pieces => String c piece :: pieces
           | [] => [String c EmptyString]
           end
  end.

(** [authHeader?.split(' ')[1]] *)
Definition tokenOf (authorization : option string) : option string :=
  match authorization with
  | Some authHeader => nth_error (split " "%char authHeader) 1
  | None => None
  end.

(** [jwt.verify(token, secret) as TokenPayload]: the decoded payload,
    taken at the type the code declares for it, or a [JsonWebTokenError]
    (expired and not-yet-valid tokens are of that class too). *)
Inductive Verified : Type :=
| Decoded (payload : UserInfo)
| JsonWebTokenError (message : string).

(** The columns [authenticateToken] selects from [user]. *)
Record UserRow : Type := mkUserRow {
  id : string;
  tenantId : string;
  accountType : string;
  isActive : bool
}.

(** [authenticateToken], over the token verifier and
    [prisma.user.findUnique({ where: { id } })]: [Ok] is [next()] with the
    request as it leaves, [Throw e] is [next(e)]. *)
Definition authenticateToken (verify : string -> Verified)
    (findUnique : string -> Result (option UserRow))
    (authorization : option string) (req : Request) : Result Request :=
  match tokenOf authorization with
  | None => Throw (AppError "Token de autenticação não fornecido" 401)
  | Some token =>
      if String.eqb token "" then
        Throw (AppError "Token de autenticação não fornecido" 401)
      else
        match verify token with
        | JsonWebTokenError _ => Throw (AppError "Token inválido" 401)
        | Decoded decoded =>
            do found <- findUnique (userId decoded);
            match found with
            | None => Throw (AppError "Usuário não encontrado ou inativo" 401)
            | Some row =>
                if negb (isActive row) then
                  Throw (AppError "Usuário não encontrado ou inativo" 401)
                else
                  Ok (mkReq (Some (mkUser (id row) (tenantId row)
                                     (accountType row)))
                        (tenant req))
            end
        end
  end.

(** [requireAdmin], over [process.env.ADMIN_KEY] and the [x-admin-key]
    header. *)
Definition requireAdmin (envAdminKey : option string)
    (adminKey : option string) : Result unit :=
  match adminKey with
  | None => Throw (AppError "Acesso administrativo não autorizado" 403)
  | Some key =>
      if String.eqb key ""
         || negb (match envAdminKey with
                  | Some expected => String.eqb key expected
                  | None => false
                  end)
      then Throw (AppError "Acesso administrativo não autorizado" 403)
      else Ok tt
  end.

Definition checkPermission (requiredAccountType : list string)
    (req : Request) : Result Request :=
  match user req with
  | None => Throw (AppError "Usuário não autenticado" 401)
  | Some u =>
      if negb (includes requiredAccountType (Schema.accountType u)) then
        Throw (AppError "Permissão insuficiente para esta operação" 403)
      else Ok req
  end.

End Auth.

(* ===================================================================== *)
(** ** The protected part of the application (server entry point) *)
(* ===================================================================== *)

Module App.

Import PlanAccess.

(** A middleware that ends in [next(error)] is answered by the error
    handler, the last middleware of the application. *)
Definition throwing (nodeEnv : option string)
    (mw : Request -> Result Request) (req : Request) : Outcome :=
  match mw req with
  | Ok req' => Next req'
  | Throw e => ErrorHandler.respondTo nodeEnv e
  end.

(** [router.post('/invoices', checkPlanAccess('billing'),
                 checkPermission(['COMPOSITE', 'MANAGERIAL']), ...)] *)
Definition postInvoices (nodeEnv : option string) (db : Db) (now : Z)
  : Request -> Outcome :=
  Routes.chain [checkPlanAccess "billing" db now;
                throwing nodeEnv
                  (Auth.checkPermission ["COMPOSITE"; "MANAGERIAL"])].

(** [router.post('/transactions', checkPlanAccess('cash_flow'),
                 checkPermission(['COMPOSITE', 'MANAGERIAL']), ...)] *)
Definition postTransactions (nodeEnv : option string) (db : Db) (now : Z)
  : Request -> Outcome :=
  Routes.chain [checkPlanAccess "cash_flow" db now;
                throwing nodeEnv
                  (Auth.checkPermission ["COMPOSITE"; "MANAGERIAL"])].

(** [router.post('/tasks', checkPlanAccess('tasks'), ...)] *)
Definition postTasks (db : Db) (now : Z) : Request -> Outcome :=
  Routes.chain [checkPlanAccess "tasks" db now].


End App.

(* ===================================================================== *)
(** ** Request schemas (zod) *)
(* ===================================================================== *)

Module Zod.

(** The format checks of the zod library, [z.string().email()] and
    [z.string().uuid()]: what they accept is the library's, so they are
    taken as given. *)
Record Formats : Type := mkFormats {
  isEmail : string -> bool;
  isUuid : string -> bool
}.

(** [s.length], the number of UTF-16 code units of a string; the strings
    of the model are in UTF-8, where a byte below 0x80 or a lead byte of a
    two- or three-byte sequence stands for one unit, the lead byte of a
    four-byte sequence for two, and a continuation byte for none. *)
Fixpoint utf16Length (s : string) : Z :=
  match s with
  | EmptyString => 0
  | String c rest =>
      let b := Z.of_nat (nat_of_ascii c) in
      (if b <? 128 then 1
       else if b <? 192 then 0
       else if b <? 240 then 1
       else 2) + utf16Length rest
  end.

(** A member declared [z.string()]: there, and a string. *)
Definition stringMember (body : Props) (key : string) : option string :=
  match lookup key body with
  | Some (JStr text) => Some text
  | _ => None
  end.

(** A member declared [z.string().optional()]: left out (or undefined),
    or a string. *)
Definition optionalStringMember (body : Props) (key : string)
  : option (option string) :=
  match lookup key body with
  | None | Some JUndefined => Some None
  | Some (JStr text) => Some (Some text)
  | Some _ => None
  end.

(** How a handler wrapped in [asyncHandler] settles: it answers, or its
    [schema.parse] throws a ZodError, or something else is thrown. *)
Inductive Settled (A : Type) : Type :=
| Resolved (a : A)
| RejectedZod
| Rejected (e : Error).
Arguments Resolved {A} a.
Arguments RejectedZod {A}.
Arguments Rejected {A} e.

Definition settle {A} (r : Result A) : Settled A :=
  match r with
  | Ok a => Resolved a
  | Throw e => Rejected e
  end.

End Zod.

(* ===================================================================== *)
(** ** Administration routes (routes/admin.routes.ts) *)
(* ===================================================================== *)

Module Admin.

(** [...(cond && { key: value })] inside an object literal: a falsy
    [cond] spreads nothing, a truthy one spreads the one property. *)
Definition spreadIf (cond : bool) (key : string) (value : JsVal)
    (data : Props) : Props :=
  if cond then assign key value data else data.

Definition isUndefined (v : JsVal) : bool :=
  match v with
  | JUndefined => true
  | _ => false
  end.

Definition member (body : Props) (key : string) : JsVal :=
  match lookup key body with
  | Some v => v
  | None => JUndefined
  end.

(** The [data] of [prisma.tenant.update] in [PATCH /tenants/:id], from the
    request body; [toDate] is [new Date(expiresAt)]. *)
Definition patchTenantData (toDate : JsVal -> JsVal) (body : Props) : Props :=
  let isActive := member body "isActive" in
  let expiresAt := member body "expiresAt" in
  let planType := member body "planType" in
  spreadIf (truthy planType) "planType" planType
    (spreadIf (truthy expiresAt) "expiresAt" (toDate expiresAt)
       (spreadIf (negb (isUndefined isActive)) "isActive" isActive [])).

(** [process.env.X || fallback] *)
Definition envOr (value : option string) (fallback : string) : string :=
  match value with
  | Some v => if String.eqb v "" then fallback else v
  | None => fallback
  end.

(** [adminLoginSchema.parse(req.body)]: e-mail, password of at least six
    characters, and the key, a string. *)
Definition parseAdminLogin (formats : Zod.Formats) (body : JsVal)
  : option (string * string * string) :=
  match body with
  | JObj members =>
      match Zod.stringMember members "email",
            Zod.stringMember members "password",
            Zod.stringMember members "adminKey" with
      | Some email, Some password, Some adminKey =>
          if Zod.isEmail formats email && (6 <=? Zod.utf16Length password)
          then Some (email, password, adminKey)
          else None
      | _, _, _ => None
      end
  | _ => None
  end.

(** The handler's body after the parse. *)
Definition adminLoginParsed
    (envAdminKey envAdminEmail envAdminPassword : option string)
    (sign : string) (email password adminKey : string) : Result string :=
  if negb (match envAdminKey with
           | Some expected => String.eqb adminKey expected
           | None => false
           end)
  then Throw (AppError "Chave administrativa inválida" 401)
  else
    let adminEmail := envOr envAdminEmail "admin@example.com" in
    let adminPassword := envOr envAdminPassword "admin123" in
    if negb (String.eqb email adminEmail)
       || negb (String.eqb password adminPassword)
    then Throw (AppError "Credenciais administrativas inválidas" 401)
    else Ok sign.

(** [POST /login] of the administration router, on the request body: the
    signed token of the answer, or how the handler fails; [sign] is
    [jwt.sign({ isAdmin: true }, secret, { expiresIn: '24h' })]. *)
Definition adminLogin (formats : Zod.Formats)
    (envAdminKey envAdminEmail envAdminPassword : option string)
    (sign : string) (body : JsVal) : Zod.Settled string :=
  match parseAdminLogin formats body with
  | None => Zod.RejectedZod
  | Some (email, password, adminKey) =>
      Zod.settle (adminLoginParsed envAdminKey envAdminEmail envAdminPassword
                    sign email password adminKey)
  end.

End Admin.

(* ===================================================================== *)
(** ** Client-side checks (client/hooks/useAuth) *)
(* ===================================================================== *)

Module ClientAuth.

(** [user.tenant] as the login answer carries it; [expiresAt] is the time
    the serialised date stands for. *)
Record ClientTenant : Type := mkClientTenant {
  planType : PlanType;
  isActive : bool;
  expiresAt : option Z
}.

Record ClientUser : Type := mkClientUser {
  accountType : string;
  tenant : option ClientTenant
}.

Definition hasPermission (user : option ClientUser) (permission : string) : bool :=
  match user with
  | None => false
  | Some u =>
      if String.eqb (accountType u) "OWNER" then true
      else if String.eqb (accountType u) "ADMIN" then
        negb (includes ["DELETE_TENANT"; "MANAGE_BILLING"] permission)
      else if String.eqb (accountType u) "USER" then
        includes ["VIEW_DASHBOARD"; "VIEW_CLIENTS"; "CREATE_CLIENT";
                  "VIEW_PROJECTS"] permission
      else false
  end.

Definition planModules (p : PlanType) : list string :=
  match p with
  | SIMPLE => ["dashboard"; "crm"; "clients"; "basic_reports"]
  | COMPOSITE =>
      ["dashboard"; "crm"; "clients"; "projects"; "tasks";
       "basic_reports"; "project_reports"; "file_management"]
  | MANAGERIAL =>
      ["dashboard"; "crm"; "clients"; "projects"; "tasks"; "billing";
       "invoices"; "cash_flow"; "transactions"; "advanced_reports";
       "analytics"; "file_management"; "audit_logs"; "user_management"]
  end.

Definition canAccessModule (user : option ClientUser) (module : string) : bool :=
  match user with
  | Some {| tenant := Some t |} => includes (planModules (planType t)) module
  | _ => false
  end.

Definition isAccountValid (now : Z) (user : option ClientUser) : bool :=
  match user with
  | Some {| tenant := Some t |} =>
      if negb (isActive t) then false
      else match expiresAt t with
           | Some e => if now >? e then false else true
           | None => true
           end
  | _ => false
  end.

Record PlanInfo : Type := mkPlanInfo {
  name : string;
  maxUsers : Z;
  maxClients : Z;
  features : list string
}.

Definition getPlanInfo (user : option ClientUser) : option PlanInfo :=
  match user with
  | Some {| tenant := Some t |} =>
      Some match planType t with
           | SIMPLE =>
               mkPlanInfo "Simples" 3 50 ["CRM Básico"; "Relatórios Simples"]
           | COMPOSITE =>
               mkPlanInfo "Composto" 10 200
                 ["CRM Avançado"; "Gestão de Projetos"; "Relatórios Avançados"]
           | MANAGERIAL =>
               mkPlanInfo "Gerencial" (-1) (-1)
                 ["Todas as funcionalidades"; "Faturamento";
                  "Fluxo de Caixa"; "Analytics"]
           end
  | _ => None
  end.

(** [error.response?.data?.error || 'Erro ao fazer login'] of [login],
    on the body of the answer. *)
Definition loginErrorMessage (data : Props) : JsVal :=
  match lookup "error" data with
  | Some e => if truthy e then e else JStr "Erro ao fazer login"
  | None => JStr "Erro ao fazer login"
  end.

End ClientAuth.

(* ===================================================================== *)
(** ** Login and registration (routes/auth.routes.ts) *)
(* ===================================================================== *)

Module AuthRoutes.

Import Audit.

(** A row of [user] with its tenant included, as [login] reads it. *)
Record LoginUser : Type := mkLoginUser {
  id : string;
  email : string;
  passwordHash : string;
  accountType : string;
  isActive : bool;
  tenantId : string;
  companyName : string;
  tenant : TenantRow
}.

(** The operations of the Prisma client and of the libraries the two
    handlers call, each free to resolve or reject:
    [user.findFirst({ where: { email, tenantId? } })],
    [user.update({ where: { id }, data: { lastLogin } })],
    [tenant.findUnique({ where: { id } })], [user.create], the audit
    append, [bcrypt.compare], [bcrypt.hash] and [jwt.sign]. *)
Record Ops (S : Type) : Type := mkOps {
  findFirst : string -> option string -> Async S (option LoginUser);
  updateLastLogin : string -> Z -> Async S unit;
  findTenant : string -> Async S (option TenantRow);
  createUser : string -> string -> string -> string -> Async S string;
  auditLogCreate : PrismaClient S;
  compare : string -> string -> bool;
  hash : string -> string;
  sign : UserInfo -> string
}.
Arguments findFirst {S} o.
Arguments updateLastLogin {S} o.
Arguments findTenant {S} o.
Arguments createUser {S} o.
Arguments auditLogCreate {S} o.
Arguments compare {S} o.
Arguments hash {S} o.
Arguments sign {S} o.

Definition throw {S A} (e : Error) : Async S A := fun w => (Throw e, w).

(** [...(tenantId && { tenantId })] of the login filter. *)
Definition tenantFilter (tenantId : option string) : option string :=
  match tenantId with
  | Some t => if String.eqb t "" then None else Some t
  | None => None
  end.

Definition jsTenant (u : LoginUser) : JsVal :=
  JObj [("id", JStr (Schema.id (tenant u)));
        ("companyName", JStr (companyName u));
        ("planType", JStr (planName (planType (tenant u))));
        ("isActive", JBool (Schema.isActive (tenant u)));
        ("expiresAt", PlanAccess.jsExpiresAt (tenant u))].

(** [loginSchema.parse(req.body)]: e-mail, password of at least six
    characters, and an optional tenant id. *)
Definition parseLogin (formats : Zod.Formats) (body : JsVal)
  : option (string * string * option string) :=
  match body with
  | JObj members =>
      match Zod.stringMember members "email",
            Zod.stringMember members "password",
            Zod.optionalStringMember members "tenantId" with
      | Some givenEmail, Some givenPassword, Some givenTenantId =>
          if Zod.isEmail formats givenEmail
             && (6 <=? Zod.utf16Length givenPassword)
          then Some (givenEmail, givenPassword, givenTenantId)
          else None
      | _, _, _ => None
      end
  | _ => None
  end.

(** The body of the [POST /login] handler after the parse: the body of the
    200 answer, or the error thrown. *)
Definition loginParsed {S} (ops : Ops S) (now : Z)
    (givenEmail givenPassword : string) (givenTenantId : option string)
  : Async S Props :=
  andThen (findFirst ops givenEmail (tenantFilter givenTenantId)) (fun found =>
  match found with
  | None => throw (AppError "Credenciais inválidas" 401)
  | Some user =>
      if negb (isActive user) then throw (AppError "Usuário inativo" 403)
      else if negb (Schema.isActive (tenant user)) then
        throw (AppError "Empresa inativa" 403)
      else if Tenant.lapsed now (tenant user) then
        throw (AppError "Assinatura expirada" 403)
      else if negb (compare ops givenPassword (passwordHash user)) then
        throw (AppError "Credenciais inválidas" 401)
      else
        let token :=
          sign ops (mkUser (id user) (tenantId user) (accountType user)) in
        andThen (updateLastLogin ops (id user) now) (fun _ =>
        andThen (createAuditLog (auditLogCreate ops) (id user)
                   (tenantId user) "LOGIN" "USER" (id user)
                   (JObj [("email", JStr (email user))])) (fun _ =>
        ret [("token", JStr token);
             ("user", JObj [("id", JStr (id user));
                            ("email", JStr (email user));
                            ("accountType", JStr (accountType user));
                            ("tenant", jsTenant user)])]))
  end).

(** The handler of [POST /login] on the request body. *)
Definition login {S} (formats : Zod.Formats) (ops : Ops S) (now : Z)
    (body : JsVal) (w : World S) : Zod.Settled Props * World S :=
  match parseLogin formats body with
  | None => (Zod.RejectedZod, w)
  | Some (givenEmail, givenPassword, givenTenantId) =>
      let '(r, w') :=
        loginParsed ops now givenEmail givenPassword givenTenantId w in
      (Zod.settle r, w')
  end.

(** [registerSchema.parse(req.body)]: e-mail, password of at least six
    characters, a tenant id that is a UUID, and one of the three account
    types. *)
Definition parseRegister (formats : Zod.Formats) (body : JsVal)
  : option (string * string * string * string) :=
  match body with
  | JObj members =>
      match Zod.stringMember members "email",
            Zod.stringMember members "password",
            Zod.stringMember members "tenantId",
            Zod.stringMember members "accountType" with
      | Some givenEmail, Some givenPassword, Some givenTenantId,
        Some givenAccountType =>
          if Zod.isEmail formats givenEmail
             && (6 <=? Zod.utf16Length givenPassword)
             && Zod.isUuid formats givenTenantId
             && includes ["SIMPLE"; "COMPOSITE"; "MANAGERIAL"]
                  givenAccountType
          then Some (givenEmail, givenPassword, givenTenantId,
                     givenAccountType)
          else None
      | _, _, _, _ => None
      end
  | _ => None
  end.

(** The body of the [POST /register] handler after the parse: the body of
    the 201 answer, or the error thrown; [createUser] returns the id of
    the new row. *)
Definition registerParsed {S} (ops : Ops S)
    (email password tenantId accountType : string) : Async S Props :=
  andThen (findFirst ops email (Some tenantId)) (fun existingUser =>
  match existingUser with
  | Some _ => throw (AppError "Usuário já existe" 409)
  | None =>
      andThen (findTenant ops tenantId) (fun found =>
      match found with
      | None => throw (AppError "Tenant não encontrado" 404)
      | Some t =>
          if negb (Schema.isActive t) then throw (AppError "Tenant inativo" 403)
          else
            let passwordHash := hash ops password in
            andThen (createUser ops email passwordHash tenantId accountType)
              (fun newId =>
            andThen (createAuditLog (auditLogCreate ops) newId tenantId
                       "REGISTER" "USER" newId
                       (JObj [("email", JStr email);
                              ("accountType", JStr accountType)])) (fun _ =>
            ret [("message", JStr "Usuário criado com sucesso");
                 ("user", JObj [("id", JStr newId);
                                ("email", JStr email);
                                ("accountType", JStr accountType)])]))
      end)
  end).

(** The handler of [POST /register] on the request body. *)
Definition register {S} (formats : Zod.Formats) (ops : Ops S)
    (body : JsVal) (w : World S) : Zod.Settled Props * World S :=
  match parseRegister formats body with
  | None => (Zod.RejectedZod, w)
  | Some (givenEmail, givenPassword, givenTenantId, givenAccountType) =>
      let '(r, w') :=
        registerParsed ops givenEmail givenPassword givenTenantId
          givenAccountType w in
      (Zod.settle r, w')
  end.

(** Sample operations over a store without content: one stored user,
    one tenant, a password hash that is the password behind a prefix, and
    an audit append that always rejects; and stand-ins for the format
    checks that hold of the sample e-mail addresses and tenant id. *)
Definition sampleTenantId : string := "123e4567-e89b-12d3-a456-426614174000".

Definition sampleUser : LoginUser :=
  mkLoginUser "user-1" "ana@example.com" "hash:secret1" "SIMPLE" true
    sampleTenantId "Acme" (mkTenant sampleTenantId SIMPLE true (Some 1000)).

Definition sampleOps : Ops unit :=
  mkOps unit
    (fun givenEmail _ =>
       ret (if String.eqb givenEmail "ana@example.com"
            then Some sampleUser else None))
    (fun _ _ => ret tt)
    (fun tid =>
       ret (if String.eqb tid sampleTenantId
            then Some (mkTenant sampleTenantId SIMPLE true (Some 1000))
            else None))
    (fun _ _ _ _ => ret "user-2")
    (fun _ => throw (OtherError "storage unavailable"))
    (fun password hashed => String.eqb hashed ("hash:" ++ password))
    (fun password => "hash:" ++ password)
    (fun payload => "token-of-" ++ Schema.userId payload).

Definition sampleFormats : Zod.Formats :=
  Zod.mkFormats
    (fun text => includes ["ana@example.com"; "bia@example.com"] text)
    (fun text => String.eqb text sampleTenantId).

(** [{ email: 'ana@example.com', password: 'not-her-password' }] *)
Definition sampleLoginBody : JsVal :=
  JObj [("email", JStr "ana@example.com");
        ("password", JStr "not-her-password")].

(** [{ email: 'bia@example.com', password: 'secret2', tenantId: ...,
       accountType: 'MANAGERIAL' }] *)
Definition sampleRegisterBody : JsVal :=
  JObj [("email", JStr "bia@example.com");
        ("password", JStr "secret2");
        ("tenantId", JStr sampleTenantId);
        ("accountType", JStr "MANAGERIAL")].

End AuthRoutes.

(* ===================================================================== *)
(** * Properties *)
(* ===================================================================== *)

Import PlanAccess.

(** ** Shared facts about the value model *)

Lemma includes_In (xs : list string) (x : string) :
  includes xs x = true <-> In x xs.
Proof.
  induction xs as [|y ys IH]; simpl.
  - split; [discriminate | tauto].
  - rewrite orb_true_iff, IH, String.eqb_eq. tauto.
Qed.

Lemma lookup_assign_same (k : string) (v : JsVal) (ps : Props) :
  lookup k (assign k v ps) = Some v.
Proof.
  induction ps as [|[k' v'] ps IH]; simpl.
  - now rewrite String.eqb_refl.
  - destruct (String.eqb k k') eqn:E; simpl.
    + now rewrite String.eqb_refl.
    + now rewrite E.
Qed.

Lemma lookup_assign_other (k k' : string) (v : JsVal) (ps : Props) :
  k' <> k -> lookup k' (assign k v ps) = lookup k' ps.
Proof.
  intros Hne. induction ps as [|[k0 v0] ps IH]; simpl.
  - apply String.eqb_neq in Hne. now rewrite Hne.
  - destruct (String.eqb k k0) eqn:E; simpl.
    + apply String.eqb_eq in E. subst k0.
      apply String.eqb_neq in Hne. now rewrite Hne.
    + now rewrite IH.
Qed.

(** ** The plan policy table *)

(** The suggestions for a module are the tiers whose module list has it,
    in table order. *)
Lemma getSuggestedPlans_spec (m : string) (p : PlanType) :
  In p (getSuggestedPlans m) <-> includes (PLAN_MODULES p) m = true.
Proof.
  unfold getSuggestedPlans. rewrite filter_In. unfold planKeys.
  split; [tauto | intros H; split; [destruct p; simpl; tauto | exact H]].
Qed.

(** C3, as stated, fails on the table: [basic_reports] is a module of the
    lowest tier and not of the highest. *)
Lemma C3_modules_not_monotonic :
  PLAN_LEVELS SIMPLE < PLAN_LEVELS MANAGERIAL
  /\ includes (PLAN_MODULES SIMPLE) "basic_reports" = true
  /\ includes (PLAN_MODULES MANAGERIAL) "basic_reports" = false
  /\ PLAN_LEVELS COMPOSITE < PLAN_LEVELS MANAGERIAL
  /\ includes (PLAN_MODULES COMPOSITE) "project_reports" = true
  /\ includes (PLAN_MODULES MANAGERIAL) "project_reports" = false.
Proof. repeat split; reflexivity. Qed.

Ltac in_cases H :=
  simpl in H;
  repeat (destruct H as [H|H]; [subst; try reflexivity; try congruence|]);
  try contradiction.

(** C3 (amended): for tiers t1 < t2 in SIMPLE < COMPOSITE < MANAGERIAL,
    every module of t1 other than the two report modules [basic_reports]
    and [project_reports] is a module of t2, t2 has a module t1 lacks, the
    inclusion is complete from SIMPLE to COMPOSITE, and every feature flag
    enabled for t1 is enabled for t2. *)
Theorem C3_tier_monotonicity (t1 t2 : PlanType) :
  PLAN_LEVELS t1 < PLAN_LEVELS t2 ->
  (forall m, includes (PLAN_MODULES t1) m = true ->
             m <> "basic_reports" -> m <> "project_reports" ->
             includes (PLAN_MODULES t2) m = true)
  /\ (exists m, includes (PLAN_MODULES t2) m = true
                /\ includes (PLAN_MODULES t1) m = false)
  /\ (t2 = COMPOSITE ->
      forall m, includes (PLAN_MODULES t1) m = true ->
                includes (PLAN_MODULES t2) m = true)
  /\ (forall f, features (PLAN_LIMITS t1) f = true ->
                features (PLAN_LIMITS t2) f = true).
Proof.
  intros Hlt.
  destruct t1, t2; simpl in Hlt; try lia.
  - (* SIMPLE < COMPOSITE *)
    split; [|split; [|split]].
    + intros m Hm _ _. apply includes_In in Hm. in_cases Hm.
    + exists "projects". split; reflexivity.
    + intros _ m Hm. apply includes_In in Hm. in_cases Hm.
    + intros f; destruct f; simpl; congruence.
  - (* SIMPLE < MANAGERIAL *)
    split; [|split; [|split]].
    + intros m Hm Hb Hp. apply includes_In in Hm. in_cases Hm.
    + exists "billing". split; reflexivity.
    + discriminate.
    + intros f; destruct f; simpl; congruence.
  - (* COMPOSITE < MANAGERIAL *)
    split; [|split; [|split]].
    + intros m Hm Hb Hp. apply includes_In in Hm. in_cases Hm.
    + exists "billing". split; reflexivity.
    + discriminate.
    + intros f; destruct f; simpl; congruence.
Qed.

Lemma C3_tier_monotonicity_witness :
  PLAN_LEVELS COMPOSITE < PLAN_LEVELS MANAGERIAL
  /\ (forall f, features (PLAN_LIMITS COMPOSITE) f = true ->
                features (PLAN_LIMITS MANAGERIAL) f = true).
Proof.
  assert (H : PLAN_LEVELS COMPOSITE < PLAN_LEVELS MANAGERIAL)
    by (simpl; lia).
  split; [exact H|].
  exact (proj2 (proj2 (proj2 (C3_tier_monotonicity COMPOSITE MANAGERIAL H)))).
Defined.

(** ** The entitlement checks *)

Lemma tenant_findUnique_online (db : Db) (tid : string) (r : option TenantRow) :
  tenant_findUnique db tid = Ok r -> online db = true.
Proof.
  unfold tenant_findUnique, query. destruct (online db); [reflexivity | discriminate].
Qed.

(** A request that passes the module-access check leaves with the snapshot
    of a tenant that was active and unexpired at the time of the check. *)
Lemma checkPlanAccess_next (m : string) (db : Db) (now : Z) (req req' : Request) :
  checkPlanAccess m db now req = Next req' ->
  exists t, tenant req' = Some t /\ user req' = user req
            /\ isActive t = true /\ expired now t = false
            /\ includes (PLAN_MODULES (planType t)) m = true.
Proof.
  unfold checkPlanAccess.
  destruct (userTenantId req) as [tid|]; [|discriminate].
  destruct (tenant_findUnique db tid) as [[t|]|e]; simpl; try discriminate.
  destruct (isActive t) eqn:Ha; simpl; [|discriminate].
  destruct (expired now t) eqn:He; simpl; [discriminate|].
  destruct (includes (PLAN_MODULES (planType t)) m) eqn:Hm; simpl; [|discriminate].
  intros H. injection H as <-. exists t. simpl. auto.
Qed.

(** C4, as stated, fails for the resource-limit and feature-flag checks:
    on the snapshot of an inactive tenant the limit check lets the request
    through, on the snapshot of a tenant expired a second ago the feature
    check lets it through, and without a snapshot the limit check answers
    INVALID_AUTH for a tenant that is inactive in the store. *)
Lemma C4_limit_and_feature_skip_lifecycle :
  isActive Samples.inactiveTenant = false
  /\ checkPlanLimits clients (Samples.dbWith Samples.inactiveTenant 0)
       (Samples.withSnapshot Samples.inactiveTenant)
     = Next (Samples.withSnapshot Samples.inactiveTenant)
  /\ expired 2000 Samples.expiredTenant = true
  /\ checkPlanFeature api_access (Samples.withSnapshot Samples.expiredTenant)
     = Next (Samples.withSnapshot Samples.expiredTenant)
  /\ codeOf (checkPlanLimits clients (Samples.dbWith Samples.inactiveTenant 0)
               Samples.authenticated)
     = Some (JStr "INVALID_AUTH").
Proof. repeat split; reflexivity. Qed.

(** The resource-limit check reads the plan of the attached snapshot and
    nothing else of it: on two snapshots of the same plan it gives the same
    answer, or passes each request on. *)
Lemma checkPlanLimits_reads_plan_only
    (r : ResourceType) (db : Db) (u : option UserInfo) (t1 t2 : TenantRow) :
  planType t1 = planType t2 ->
  checkPlanLimits r db (mkReq u (Some t2))
  = match checkPlanLimits r db (mkReq u (Some t1)) with
    | Next _ => Next (mkReq u (Some t2))
    | Respond status body => Respond status body
    end.
Proof.
  intros Hp. unfold checkPlanLimits, checkPlanLimitsWith. simpl.
  change (userTenantId (mkReq u (Some t2)))
    with (userTenantId (mkReq u (Some t1))).
  destruct (userTenantId (mkReq u (Some t1))) as [tid|]; [|reflexivity].
  rewrite Hp.
  destruct (currentCountFor db tid r) as [n|e]; simpl; [|reflexivity].
  now destruct (negb _ && _).
Qed.

(** So does the feature-flag check. *)
Lemma checkPlanFeature_reads_plan_only
    (f : Feature) (u : option UserInfo) (t1 t2 : TenantRow) :
  planType t1 = planType t2 ->
  checkPlanFeature f (mkReq u (Some t2))
  = match checkPlanFeature f (mkReq u (Some t1)) with
    | Next _ => Next (mkReq u (Some t2))
    | Respond status body => Respond status body
    end.
Proof.
  intros Hp. unfold checkPlanFeature. simpl. rewrite Hp.
  now destruct (negb _).
Qed.

(** C4 (amended): only the module-access check validates the tenant's
    lifecycle state, and it does so before its module logic: for a tenant
    found in the store, an inactive one yields 403 TENANT_INACTIVE and an
    active one whose expiry timestamp has passed yields 403 PLAN_EXPIRED
    carrying that timestamp, whatever the module.  The resource-limit and
    feature-flag checks do not look at lifecycle state: they read no clock,
    and on any two snapshots of the same plan, whatever their active flag
    and expiry, each gives the same answer or passes the request on.
    Chained after the module-access check on a route they are not reached
    for an inactive or expired tenant, and a request that does reach them
    carries the snapshot of a tenant that was active and unexpired when
    the module-access check ran. *)
Theorem C4_lifecycle_checked_by_module_access
    (m : string) (db : Db) (now : Z) (req : Request)
    (tid : string) (t : TenantRow) :
  userTenantId req = Some tid ->
  tenant_findUnique db tid = Ok (Some t) ->
  (isActive t = false ->
   checkPlanAccess m db now req
   = Respond 403 [("error", JStr "Conta da empresa está inativa");
                  ("code", JStr "TENANT_INACTIVE")])
  /\ (isActive t = true -> forall e, expiresAt t = Some e -> now > e ->
      checkPlanAccess m db now req
      = Respond 403 [("error", JStr "Plano da empresa expirou");
                     ("code", JStr "PLAN_EXPIRED");
                     ("expiresAt", JDate e [])])
  /\ (isActive t = false \/ expired now t = true ->
      forall later, Routes.chain (checkPlanAccess m db now :: later) req
                    = checkPlanAccess m db now req)
  /\ (forall later req',
        checkPlanAccess m db now req = Next req' ->
        Routes.chain (checkPlanAccess m db now :: later) req
        = Routes.chain later req'
        /\ tenant req' = Some t /\ isActive t = true /\ expired now t = false)
  /\ (forall r store u t1 t2,
        planType t1 = planType t2 ->
        checkPlanLimits r store (mkReq u (Some t2))
        = match checkPlanLimits r store (mkReq u (Some t1)) with
          | Next _ => Next (mkReq u (Some t2))
          | Respond status body => Respond status body
          end)
  /\ (forall f u t1 t2,
        planType t1 = planType t2 ->
        checkPlanFeature f (mkReq u (Some t2))
        = match checkPlanFeature f (mkReq u (Some t1)) with
          | Next _ => Next (mkReq u (Some t2))
          | Respond status body => Respond status body
          end).
Proof.
  intros Hu Hf.
  assert (Hinactive : isActive t = false ->
    checkPlanAccess m db now req
    = Respond 403 [("error", JStr "Conta da empresa está inativa");
                   ("code", JStr "TENANT_INACTIVE")]).
  { intros Ha. unfold checkPlanAccess. rewrite Hu, Hf. simpl. now rewrite Ha. }
  assert (Hexpired : isActive t = true -> expired now t = true ->
    checkPlanAccess m db now req
    = Respond 403 [("error", JStr "Plano da empresa expirou");
                   ("code", JStr "PLAN_EXPIRED");
                   ("expiresAt", jsExpiresAt t)]).
  { intros Ha He. unfold checkPlanAccess. rewrite Hu, Hf. simpl.
    now rewrite Ha, He. }
  split; [exact Hinactive|]. split; [|split; [|split; [|split]]].
  - intros Ha e He Hlt.
    rewrite Hexpired; auto.
    + unfold jsExpiresAt. now rewrite He.
    + unfold expired. rewrite He. apply Z.gtb_gt. lia.
  - intros Hdead later. simpl.
    destruct (isActive t) eqn:Ha.
    + destruct Hdead as [Hd|Hd]; [discriminate|]. now rewrite Hexpired.
    + now rewrite Hinactive.
  - intros later req' Hnext. simpl. rewrite Hnext. split; [reflexivity|].
    revert Hnext. unfold checkPlanAccess. rewrite Hu, Hf. simpl.
    destruct (isActive t) eqn:Ha; simpl; [|discriminate].
    destruct (expired now t) eqn:He; simpl; [discriminate|].
    destruct (includes (PLAN_MODULES (planType t)) m); simpl; [|discriminate].
    intros H. injection H as <-. simpl. auto.
  - intros r store u t1 t2. apply checkPlanLimits_reads_plan_only.
  - intros f u t1 t2. apply checkPlanFeature_reads_plan_only.
Qed.

Lemma C4_lifecycle_checked_by_module_access_witness :
  checkPlanAccess "clients" (Samples.dbWith Samples.inactiveTenant 0) 2000
    Samples.authenticated
  = Respond 403 [("error", JStr "Conta da empresa está inativa");
                 ("code", JStr "TENANT_INACTIVE")]
  /\ Routes.postClients (Samples.dbWith Samples.expiredTenant 0) 2000
       Samples.authenticated
     = Respond 403 [("error", JStr "Plano da empresa expirou");
                    ("code", JStr "PLAN_EXPIRED");
                    ("expiresAt", JDate 1000 [])].
Proof.
  split.
  - apply (C4_lifecycle_checked_by_module_access "clients"
             (Samples.dbWith Samples.inactiveTenant 0) 2000
             Samples.authenticated "tenant-1" Samples.inactiveTenant);
      reflexivity.
  - unfold Routes.postClients.
    destruct (C4_lifecycle_checked_by_module_access "clients"
                (Samples.dbWith Samples.expiredTenant 0) 2000
                Samples.authenticated "tenant-1" Samples.expiredTenant
                eq_refl eq_refl) as (_ & Hexp & Hchain & _).
    rewrite Hchain; [|right; reflexivity].
    apply Hexp; [reflexivity | reflexivity | lia].
Defined.

(** The body of a 403 PLAN_LIMIT_EXCEEDED answer. *)
Lemma checkPlanLimitsWith_decision
    (table : PlanType -> Limits) (r : ResourceType) (db : Db) (req : Request)
    (t : TenantRow) (tid : string) (n : Z) :
  tenant req = Some t ->
  userTenantId req = Some tid ->
  currentCountFor db tid r = Ok n ->
  checkPlanLimitsWith table r db req
  = if negb (maxAllowedFor (table (planType t)) r =? -1)
       && (n >=? maxAllowedFor (table (planType t)) r)
    then Respond 403
           [("error", JStr ("Limite do plano atingido para " ++ resourceName r));
            ("code", JStr "PLAN_LIMIT_EXCEEDED");
            ("currentPlan", JStr (planName (planType t)));
            ("resourceType", JStr (resourceName r));
            ("currentCount", JNum n);
            ("maxAllowed", JNum (maxAllowedFor (table (planType t)) r));
            ("suggestedPlans",
             jsPlans (getSuggestedPlansForLimit r (planType t)))]
    else Next req.
Proof.
  intros Ht Hu Hn. unfold checkPlanLimitsWith. rewrite Ht, Hu, Hn. simpl.
  now destruct (negb _ && _).
Qed.

(** C5: for every resource kind and every current count, the
    resource-limit check lets the request through when the ceiling is the
    unlimited sentinel -1; with any other ceiling N it lets the request
    through when the count is below N and answers 403 PLAN_LIMIT_EXCEEDED,
    carrying the count and N, exactly when the count is at least N; and a
    SIMPLE tenant (maxClients = 50) with 50 client rows is denied with
    currentCount = 50 and maxAllowed = 50. *)
Theorem C5_resource_limit_boundary
    (table : PlanType -> Limits) (r : ResourceType) (db : Db) (req : Request)
    (t : TenantRow) (tid : string) (n : Z) :
  tenant req = Some t ->
  userTenantId req = Some tid ->
  currentCountFor db tid r = Ok n ->
  0 <= n ->
  (maxAllowedFor (table (planType t)) r = -1 ->
   checkPlanLimitsWith table r db req = Next req)
  /\ (maxAllowedFor (table (planType t)) r <> -1 ->
      n < maxAllowedFor (table (planType t)) r ->
      checkPlanLimitsWith table r db req = Next req)
  /\ (maxAllowedFor (table (planType t)) r <> -1 ->
      (n >= maxAllowedFor (table (planType t)) r <->
       codeOf (checkPlanLimitsWith table r db req)
       = Some (JStr "PLAN_LIMIT_EXCEEDED")))
  /\ (maxAllowedFor (table (planType t)) r <> -1 ->
      n >= maxAllowedFor (table (planType t)) r ->
      field "currentCount" (checkPlanLimitsWith table r db req) = Some (JNum n)
      /\ field "maxAllowed" (checkPlanLimitsWith table r db req)
         = Some (JNum (maxAllowedFor (table (planType t)) r)))
  /\ (planType t = SIMPLE -> r = clients -> n = 50 ->
      checkPlanLimits r db req
      = Respond 403
          [("error", JStr "Limite do plano atingido para clients");
           ("code", JStr "PLAN_LIMIT_EXCEEDED");
           ("currentPlan", JStr "SIMPLE");
           ("resourceType", JStr "clients");
           ("currentCount", JNum 50);
           ("maxAllowed", JNum 50);
           ("suggestedPlans", JArr [JStr "COMPOSITE"; JStr "MANAGERIAL"] [])]).
Proof.
  intros Ht Hu Hn _.
  pose proof (checkPlanLimitsWith_decision table r db req t tid n Ht Hu Hn) as D.
  set (N := maxAllowedFor (table (planType t)) r) in *.
  split; [|split; [|split; [|split]]].
  - intros HN. rewrite D, HN. reflexivity.
  - intros HN Hlt. rewrite D.
    replace (n >=? N) with false; [now rewrite andb_false_r|].
    symmetry. rewrite Z.geb_leb. apply Z.leb_gt. lia.
  - intros HN. rewrite D.
    assert (E : (N =? -1) = false) by (apply Z.eqb_neq; exact HN).
    rewrite E. simpl. rewrite Z.geb_leb.
    destruct (Z.leb_spec N n) as [Hle|Hgt]; simpl; split; intros Hx;
      try reflexivity; try discriminate; lia.
  - intros HN Hge. rewrite D.
    assert (E : (N =? -1) = false) by (apply Z.eqb_neq; exact HN).
    rewrite E. simpl. rewrite Z.geb_leb.
    replace (N <=? n) with true by (symmetry; apply Z.leb_le; lia).
    split; reflexivity.
  - intros Hp -> ->. unfold checkPlanLimits.
    rewrite (checkPlanLimitsWith_decision PLAN_LIMITS clients db req t tid 50 Ht Hu Hn).
    rewrite Hp. reflexivity.
Qed.

Lemma C5_resource_limit_boundary_witness :
  checkPlanLimits clients (Samples.dbWith Samples.simpleTenant 50)
    (Samples.withSnapshot Samples.simpleTenant)
  = Respond 403
      [("error", JStr "Limite do plano atingido para clients");
       ("code", JStr "PLAN_LIMIT_EXCEEDED");
       ("currentPlan", JStr "SIMPLE");
       ("resourceType", JStr "clients");
       ("currentCount", JNum 50);
       ("maxAllowed", JNum 50);
       ("suggestedPlans", JArr [JStr "COMPOSITE"; JStr "MANAGERIAL"] [])].
Proof.
  refine (proj2 (proj2 (proj2 (proj2
    (C5_resource_limit_boundary PLAN_LIMITS clients
       (Samples.dbWith Samples.simpleTenant 50)
       (Samples.withSnapshot Samples.simpleTenant)
       Samples.simpleTenant "tenant-1" 50 eq_refl eq_refl eq_refl _))))
    eq_refl eq_refl eq_refl).
  lia.
Defined.

(** On the projects route the zero ceiling of SIMPLE is never consulted:
    the module-access check in front of it denies the tenant first. *)
Lemma postProjects_simple_denied_by_module_check :
  codeOf (Routes.postProjects (Samples.dbWith Samples.simpleTenant 0) 2000
            Samples.authenticated)
  = Some (JStr "PLAN_ACCESS_DENIED").
Proof. reflexivity. Qed.




(** C8: for a tenant on SIMPLE that is active and unexpired, the
    module-access check for [projects] answers 403 PLAN_ACCESS_DENIED with
    the current tier, the requested module, the whole module list of
    SIMPLE and suggestedPlans = [COMPOSITE, MANAGERIAL], which are exactly
    the tiers whose module list has [projects]. *)
Theorem C8_simple_requests_projects
    (db : Db) (now : Z) (req : Request) (tid : string) (t : TenantRow) :
  userTenantId req = Some tid ->
  tenant_findUnique db tid = Ok (Some t) ->
  planType t = SIMPLE ->
  isActive t = true ->
  expired now t = false ->
  checkPlanAccess "projects" db now req
  = Respond 403
      [("error",
        JStr "Acesso negado. O plano SIMPLE não inclui o módulo 'projects'");
       ("code", JStr "PLAN_ACCESS_DENIED");
       ("currentPlan", JStr "SIMPLE");
       ("requiredModule", JStr "projects");
       ("allowedModules", jsStrings (PLAN_MODULES SIMPLE));
       ("suggestedPlans", JArr [JStr "COMPOSITE"; JStr "MANAGERIAL"] [])]
  /\ getSuggestedPlans "projects" = [COMPOSITE; MANAGERIAL]
  /\ (forall p, In p (getSuggestedPlans "projects")
                <-> includes (PLAN_MODULES p) "projects" = true).
Proof.
  intros Hu Hf Hp Ha He. split; [|split].
  - unfold checkPlanAccess. rewrite Hu, Hf. simpl.
    rewrite Ha, He, Hp. reflexivity.
  - reflexivity.
  - intros p. apply getSuggestedPlans_spec.
Qed.

Lemma C8_simple_requests_projects_witness :
  checkPlanAccess "projects" (Samples.dbWith Samples.simpleTenant 0) 2000
    Samples.authenticated
  = Respond 403
      [("error",
        JStr "Acesso negado. O plano SIMPLE não inclui o módulo 'projects'");
       ("code", JStr "PLAN_ACCESS_DENIED");
       ("currentPlan", JStr "SIMPLE");
       ("requiredModule", JStr "projects");
       ("allowedModules",
        JArr [JStr "dashboard"; JStr "crm"; JStr "clients";
              JStr "basic_reports"] []);
       ("suggestedPlans", JArr [JStr "COMPOSITE"; JStr "MANAGERIAL"] [])].
Proof.
  exact (proj1 (C8_simple_requests_projects
                  (Samples.dbWith Samples.simpleTenant 0) 2000
                  Samples.authenticated "tenant-1" Samples.simpleTenant
                  eq_refl eq_refl eq_refl eq_refl eq_refl)).
Defined.

(** C10: without the tenant snapshot the resource-limit check (over any
    table of limits, any store, reachable or not) and the feature-flag
    check evaluate nothing and answer 401 with code INVALID_AUTH; that code
    is not among the denial codes the specification lists; and the snapshot
    is what the module-access check attaches to a request it lets through. *)
Theorem C10_snapshot_precondition :
  (forall table r db u,
     checkPlanLimitsWith table r db {| user := u; tenant := None |}
     = Respond 401 [("error", JStr "Informações de autenticação inválidas");
                    ("code", JStr "INVALID_AUTH")])
  /\ (forall f u,
        checkPlanFeature f {| user := u; tenant := None |}
        = Respond 401 [("error", JStr "Informações de autenticação inválidas");
                       ("code", JStr "INVALID_AUTH")])
  /\ includes spec_denial_codes "INVALID_AUTH" = false
  /\ (forall m db now req,
        match checkPlanAccess m db now req with
        | Next req' => exists t, tenant req' = Some t
        | Respond _ _ => True
        end).
Proof.
  split; [|split; [|split]].
  - intros table r db u. reflexivity.
  - intros f u. reflexivity.
  - reflexivity.
  - intros m db now req.
    destruct (checkPlanAccess m db now req) as [|req'] eqn:E; [exact I|].
    destruct (checkPlanAccess_next _ _ _ _ _ E) as (t & Ht & _).
    exists t. exact Ht.
Qed.

(** ** The tenant scoping interceptor *)

Import Tenant.

Lemma bind_Ok_inv {A B} (r : Result A) (k : A -> Result B) (b : B) :
  bind r k = Ok b -> exists a, r = Ok a /\ k a = Ok b.
Proof.
  destruct r as [a|e]; simpl; [|discriminate].
  intros H. exists a. auto.
Qed.

Lemma get_set_same (o o' : JsVal) (k : string) (v : JsVal) :
  set o k v = Ok o' -> get o' k = Ok v.
Proof.
  destruct o; simpl; try discriminate;
    intros H; injection H as <-; simpl; now rewrite lookup_assign_same.
Qed.

Lemma setWhereTenant_carries (tid : string) (a a' : JsVal) :
  setWhereTenant tid a = Ok a' ->
  bind (get a' "where") (fun w => get w "tenantId") = Ok (JStr tid).
Proof.
  unfold setWhereTenant. intros H.
  apply bind_Ok_inv in H as (w & _ & H).
  apply bind_Ok_inv in H as (w' & Hw' & Ha').
  rewrite (get_set_same _ _ _ _ Ha'). simpl.
  exact (get_set_same _ _ _ _ Hw').
Qed.

Lemma setDataTenant_run (tid : string) (a d d' : JsVal) :
  get a "data" = Ok d ->
  truthy d = true ->
  set d "tenantId" (JStr tid) = Ok d' ->
  exists a', setDataTenant tid a = Ok a' /\ get a' "data" = Ok d'.
Proof.
  intros Hd Htruthy Hset. unfold setDataTenant. rewrite Hd. simpl.
  rewrite Htruthy, Hset. simpl.
  destruct a; simpl in Hd |- *;
    try (injection Hd as <-; discriminate); try discriminate;
    eexists; (split; [reflexivity|]); simpl; now rewrite lookup_assign_same.
Qed.

Lemma interceptor_keeps_target (tid : string) (params p' : Params) :
  interceptor tid params = Ok p' ->
  model p' = model params /\ action p' = action params.
Proof.
  unfold interceptor.
  repeat match goal with
         | |- context [if ?c then _ else _] => destruct c
         end;
    intros H;
    repeat match goal with
           | H : bind _ _ = Ok _ |- _ =>
               apply bind_Ok_inv in H as (? & _ & H)
           end;
    injection H as <-; split; reflexivity.
Qed.

(** A model outside the list is handed on untouched. *)
Lemma interceptor_other_model (tid : string) (params : Params) :
  isTenantModel (model params) = false -> interceptor tid params = Ok params.
Proof. intros H. unfold interceptor. now rewrite H. Qed.

(** On a listed model, the reads, updates and deletes that get through
    carry the interceptor's tenant id in their filter criteria, whatever
    the caller had put there. *)
Lemma interceptor_where (tid : string) (params p' : Params) :
  isTenantModel (model params) = true ->
  In (action params) whereActions ->
  interceptor tid params = Ok p' ->
  whereTenant p' = Ok (JStr tid).
Proof.
  intros Hm Ha. unfold interceptor, isAction. rewrite Hm.
  destruct params as [m act a]. simpl in Ha |- *.
  unfold whereTenant.
  repeat (destruct Ha as [Ha|Ha]; [subst act; simpl|]); try contradiction;
    intros H;
    repeat match goal with
           | H : bind _ _ = Ok _ |- _ =>
               let x := fresh "x" in
               let E := fresh "E" in
               apply bind_Ok_inv in H as (x & E & H)
           end;
    injection H as <-; simpl;
    eauto using setWhereTenant_carries.
Qed.

(** On a listed model, a [create] whose payload is one record gets through
    with the interceptor's tenant id in the record. *)
Lemma interceptor_create_record (tid : string) (m : string) (a : JsVal)
    (record : Props) :
  includes tenantModels m = true ->
  get a "data" = Ok (JObj record) ->
  exists p', interceptor tid (mkParams (Some m) "create" a) = Ok p'
             /\ dataTenant p' = Ok (JStr tid).
Proof.
  intros Hm Hd. unfold interceptor.
  replace (isTenantModel (model (mkParams (Some m) "create" a))) with true
    by (symmetry; exact Hm).
  unfold isAction. simpl.
  destruct (setDataTenant_run tid a (JObj record)
              (JObj (assign "tenantId" (JStr tid) record)) Hd eq_refl eq_refl)
    as (a' & Ha' & Hget).
  rewrite Ha'. simpl. eexists. split; [reflexivity|].
  unfold dataTenant. simpl. rewrite Hget. simpl.
  now rewrite lookup_assign_same.
Qed.

(** On a listed model, a [createMany] whose payload is an array gets
    through with every record as the caller wrote it: the tenant id lands
    among the named properties of the array. *)
Lemma interceptor_createMany_array (tid : string) (m : string) (a : JsVal)
    (records : list JsVal) (props : Props) :
  includes tenantModels m = true ->
  get a "data" = Ok (JArr records props) ->
  exists p', interceptor tid (mkParams (Some m) "createMany" a) = Ok p'
             /\ get (args p') "data"
                = Ok (JArr records (assign "tenantId" (JStr tid) props))
             /\ dataRecords p' = records.
Proof.
  intros Hm Hd. unfold interceptor.
  replace (isTenantModel (model (mkParams (Some m) "createMany" a))) with true
    by (symmetry; exact Hm).
  unfold isAction. simpl.
  destruct (setDataTenant_run tid a (JArr records props)
              (JArr records (assign "tenantId" (JStr tid) props))
              Hd eq_refl eq_refl)
    as (a' & Ha' & Hget).
  rewrite Ha'. simpl. eexists. split; [reflexivity|].
  unfold dataRecords. simpl. rewrite Hget. auto.
Qed.

(** An action outside the ten the interceptor names is handed on
    untouched, on a listed model too. *)
Lemma interceptor_other_action (tid : string) (params : Params) :
  ~ In (action params)
      (whereActions ++ ["create"; "createMany"])%list ->
  interceptor tid params = Ok params.
Proof.
  intros Hnot. unfold interceptor, isAction.
  destruct (isTenantModel (model params)); [|reflexivity].
  repeat match goal with
         | |- context [String.eqb (action params) ?s] =>
             let E := fresh "E" in
             destruct (String.eqb (action params) s) eqn:E;
             [apply String.eqb_eq in E; exfalso; apply Hnot; rewrite E;
              simpl; tauto|]
         end.
  reflexivity.
Qed.

Lemma runQuery_app (c1 c2 : Client) (params : Params) :
  runQuery (c1 ++ c2)%list params = bind (runQuery c1 params) (runQuery c2).
Proof.
  revert params. induction c1 as [|t c1 IH]; intros params; simpl.
  - reflexivity.
  - destruct (interceptor t params) as [p1|e]; simpl; [apply IH | reflexivity].
Qed.

Lemma runQuery_keeps_target (client : Client) (params p' : Params) :
  runQuery client params = Ok p' ->
  model p' = model params /\ action p' = action params.
Proof.
  revert params. induction client as [|t c IH]; intros params; simpl.
  - intros H. injection H as <-. auto.
  - intros H. apply bind_Ok_inv in H as (p1 & H1 & H).
    apply interceptor_keeps_target in H1 as [Hm1 Ha1].
    apply IH in H as [Hm2 Ha2]. split; congruence.
Qed.

(** The tenant middleware either leaves the shared client as it is and
    passes an error on, or appends its interceptor and passes the request
    on. *)
Lemma tenantMiddleware_installs (db : Db) (now : Z) (req : Request)
    (client client' : Client) :
  tenantMiddleware db now req client = (client', NextOk) ->
  exists tid, userTenantId req = Some tid /\ client' = (client ++ [tid])%list.
Proof.
  unfold tenantMiddleware, tenantMiddlewareBody.
  destruct (userTenantId req) as [tid|]; [|discriminate].
  destruct (tenant_findUnique db tid) as [[t|]|e]; simpl; try discriminate.
  destruct (negb (isActive t)); [discriminate|].
  destruct (lapsed now t); [discriminate|].
  intros H. injection H as <-. exists tid. auto.
Qed.

(** C1, at the failing input: a [createMany] on the listed model Client
    whose payload is an array with one record naming tenant-B, passed
    through the interceptor of a tenant-A request, gets through with the
    record still naming tenant-B; the interceptor's tenant id has become a
    property of the array. *)
Theorem C1_createMany_record_keeps_foreign_tenant :
  isTenantModel (model Samples.createManyClients) = true
  /\ interceptor "tenant-A" Samples.createManyClients
     = Ok (mkParams (Some "Client") "createMany"
             (JObj [("data",
                     JArr [JObj [("name", JStr "Acme");
                                 ("tenantId", JStr "tenant-B")]]
                          [("tenantId", JStr "tenant-A")])]))
  /\ bind (interceptor "tenant-A" Samples.createManyClients)
          (fun p => Ok (map recordTenant (dataRecords p)))
     = Ok [Ok (JStr "tenant-B")].
Proof. repeat split; reflexivity. Qed.

(** C2, as stated, fails: the interceptor is installed on the
    module-level client of tenant.ts, which all requests share.  After a
    request of tenant-A alone has passed the tenant middleware, a
    [findMany] on Client that goes through that client comes out naming
    tenant-A; once a request of tenant-B has passed as well, the client
    holds both interceptors and the same operation comes out naming
    tenant-B. *)
Lemma C2_shared_client_leaks_tenant :
  userTenantId Samples.requestOfA = Some "tenant-A"
  /\ enterAll Samples.twoTenants 0 [Samples.requestOfA] [] = ["tenant-A"]
  /\ bind (runQuery
             (enterAll Samples.twoTenants 0 [Samples.requestOfA] [])
             Samples.findManyClients)
          whereTenant
     = Ok (JStr "tenant-A")
  /\ enterAll Samples.twoTenants 0 [Samples.requestOfA; Samples.requestOfB] []
     = ["tenant-A"; "tenant-B"]
  /\ bind (runQuery
             (enterAll Samples.twoTenants 0
                [Samples.requestOfA; Samples.requestOfB] [])
             Samples.findManyClients)
          whereTenant
     = Ok (JStr "tenant-B").
Proof. repeat split; reflexivity. Qed.

(** C2 (amended): every request that passes the tenant middleware
    installs, with [prisma.$use] on the module-level client of tenant.ts
    that all requests share, an interceptor closed over the tenant id
    captured at request entry: the client's interceptors are those it had,
    with this one appended.  A [findUnique], [findFirst], [findMany],
    [update], [updateMany], [delete] or [deleteMany] on a listed model
    that gets through that client in the state the request left it in
    (that is, while that request is the last one to have passed the
    middleware) carries that request's tenant id in its filter
    criteria. *)
Theorem C2_last_entered_tenant_wins
    (db : Db) (now : Z) (req : Request) (client client' : Client)
    (params p' : Params) :
  tenantMiddleware db now req client = (client', NextOk) ->
  isTenantModel (model params) = true ->
  In (action params) whereActions ->
  runQuery client' params = Ok p' ->
  exists tid,
    userTenantId req = Some tid
    /\ client' = (client ++ [tid])%list
    /\ whereTenant p' = Ok (JStr tid).
Proof.
  intros Hmw Hm Ha Hq.
  destruct (tenantMiddleware_installs _ _ _ _ _ Hmw) as (tid & Hu & ->).
  exists tid. split; [exact Hu|]. split; [reflexivity|].
  rewrite runQuery_app in Hq.
  apply bind_Ok_inv in Hq as (p1 & H1 & Hq).
  apply runQuery_keeps_target in H1 as [Hm1 Ha1].
  simpl in Hq. apply bind_Ok_inv in Hq as (p2 & H2 & Hq).
  injection Hq as <-.
  apply (interceptor_where tid p1); [now rewrite Hm1 | now rewrite Ha1 | exact H2].
Qed.

Lemma C2_last_entered_tenant_wins_witness :
  exists tid,
    userTenantId Samples.requestOfB = Some tid
    /\ ["tenant-A"; "tenant-B"] = (["tenant-A"] ++ [tid])%list
    /\ whereTenant
         (mkParams (Some "Client") "findMany"
            (JObj [("where", JObj [("tenantId", JStr "tenant-B")])]))
       = Ok (JStr tid).
Proof.
  apply (C2_last_entered_tenant_wins Samples.twoTenants 0 Samples.requestOfB
           ["tenant-A"] ["tenant-A"; "tenant-B"] Samples.findManyClients).
  - reflexivity.
  - reflexivity.
  - simpl. tauto.
  - reflexivity.
Defined.

(** C7, at the failing input: File rows are kept and queried by tenant
    (the storage count filters them by [tenantId]), yet File is not a
    listed model, so a [findMany] on File naming tenant-B, issued under a
    tenant-A request, is handed on unchanged and still names tenant-B. *)
Theorem C7_file_model_not_rewritten :
  isTenantModel (model Samples.findManyFiles) = false
  /\ interceptor "tenant-A" Samples.findManyFiles = Ok Samples.findManyFiles
  /\ bind (interceptor "tenant-A" Samples.findManyFiles) whereTenant
     = Ok (JStr "tenant-B")
  /\ file_findMany
       (mkDb true [] [] [] [] [("tenant-A", Some 10); ("tenant-B", Some 7)])
       "tenant-A"
     = Ok [Some 10].
Proof. repeat split; reflexivity. Qed.

(** ** The audit recorder *)

(** [createAuditLog] resolves whatever its [create] does: a resolved
    [create] leaves the world it produced, a rejected one adds one line to
    the console. *)
Lemma createAuditLog_run {S : Type} (prisma : Audit.PrismaClient S)
    (userId tenantId action resourceType resourceId : string)
    (details : JsVal) (w : Audit.World S) :
  Audit.createAuditLog prisma userId tenantId action resourceType resourceId
    details w
  = match prisma (Audit.mkEntry userId tenantId action resourceType
                    resourceId details) w with
    | (Ok _, w') => (Ok tt, w')
    | (Throw e, w') =>
        (Ok tt,
         Audit.mkWorld (Audit.store w')
           (Audit.console w' ++ [("Erro ao criar log de auditoria:", e)])%list)
    end.
Proof.
  unfold Audit.createAuditLog, Audit.tryCatch, Audit.consoleError.
  destruct (prisma _ w) as [[[]|e] w']; reflexivity.
Qed.

(** C9: for every client handed to the audit recorder and every call, an
    append that fails is caught and logged on the console and the recorder
    still resolves, so no failure reaches the caller; and a creating route
    gives the same answer (the same 201 with the inserted row, or the same
    failure of its own insert) whether its audit append succeeds or
    fails. *)
Theorem C9_audit_failure_never_propagates :
  (forall (S : Type) (prisma : Audit.PrismaClient S)
          (userId tenantId action resourceType resourceId : string)
          (details : JsVal) (w : Audit.World S),
     fst (Audit.createAuditLog prisma userId tenantId action resourceType
            resourceId details w) = Ok tt
     /\ match prisma (Audit.mkEntry userId tenantId action resourceType
                        resourceId details) w with
        | (Ok _, w') =>
            snd (Audit.createAuditLog prisma userId tenantId action
                   resourceType resourceId details w) = w'
        | (Throw e, w') =>
            snd (Audit.createAuditLog prisma userId tenantId action
                   resourceType resourceId details w)
            = Audit.mkWorld (Audit.store w')
                (Audit.console w'
                 ++ [("Erro ao criar log de auditoria:", e)])%list
        end)
  /\ (forall (S : Type) (insert : Audit.Async S JsVal)
             (working failing : Audit.PrismaClient S)
             (userId tenantId action resourceType : string)
             (idOf : JsVal -> string) (w : Audit.World S),
        fst (Audit.auditedCreate insert working userId tenantId action
               resourceType idOf w)
        = fst (Audit.auditedCreate insert failing userId tenantId action
                 resourceType idOf w)
        /\ fst (Audit.auditedCreate insert failing userId tenantId action
                  resourceType idOf w)
           = match fst (insert w) with
             | Ok row => Ok (201, row)
             | Throw e => Throw e
             end)
  /\ (forall (entry : Audit.AuditEntry) (w : Audit.World (list Audit.AuditEntry)),
        Audit.createAuditLog (Audit.listClient false)
          (Audit.userId entry) (Audit.tenantId entry) (Audit.action entry)
          (Audit.resourceType entry) (Audit.resourceId entry)
          (Audit.details entry) w
        = (Ok tt,
           Audit.mkWorld (Audit.store w)
             (Audit.console w
              ++ [("Erro ao criar log de auditoria:",
                   OtherError "storage unavailable")])%list)).
Proof.
  split; [|split].
  - intros S prisma uid tid act rt rid details w.
    rewrite createAuditLog_run.
    destruct (prisma _ w) as [[[]|e] w']; split; reflexivity.
  - intros S insert working failing uid tid act rt idOf w.
    assert (R : forall prisma : Audit.PrismaClient S,
      fst (Audit.auditedCreate insert prisma uid tid act rt idOf w)
      = match fst (insert w) with
        | Ok row => Ok (201, row)
        | Throw e => Throw e
        end).
    { intros prisma. unfold Audit.auditedCreate, Audit.andThen, Audit.ret.
      destruct (insert w) as [[row|e] w1]; simpl; [|reflexivity].
      rewrite createAuditLog_run.
      destruct (prisma _ w1) as [[[]|e] w2]; reflexivity. }
    split; [now rewrite !R | apply R].
  - intros entry w. rewrite createAuditLog_run. reflexivity.
Qed.

(* ===================================================================== *)
(** * Further properties of the code *)
(* ===================================================================== *)

(** ** Entitlement checks *)

(** X1: for a tenant found active and unexpired, the module-access check
    decides exactly as the exported [canAccessModule]: it passes the
    request on with the tenant snapshot attached when the plan has the
    module, and answers 403 PLAN_ACCESS_DENIED when it has not. *)
Theorem X1_module_check_agrees_with_canAccessModule
    (m : string) (db : Db) (now : Z) (req : Request)
    (tid : string) (t : TenantRow) :
  userTenantId req = Some tid ->
  tenant_findUnique db tid = Ok (Some t) ->
  isActive t = true ->
  expired now t = false ->
  (canAccessModule (planType t) m = true ->
   checkPlanAccess m db now req = Next (mkReq (user req) (Some t)))
  /\ (canAccessModule (planType t) m = false ->
      exists body,
        checkPlanAccess m db now req = Respond 403 body
        /\ lookup "code" body = Some (JStr "PLAN_ACCESS_DENIED")
        /\ lookup "allowedModules" body
           = Some (jsStrings (PLAN_MODULES (planType t)))).
Proof.
  intros Hu Hf Ha He. unfold canAccessModule, checkPlanAccess.
  rewrite Hu, Hf. simpl. rewrite Ha, He. simpl.
  split; intros Hm; rewrite Hm; simpl.
  - reflexivity.
  - eexists. split; [reflexivity|]. split; reflexivity.
Qed.

Lemma X1_module_check_agrees_with_canAccessModule_witness :
  checkPlanAccess "clients" (Samples.dbWith Samples.simpleTenant 0) 2000
    Samples.authenticated
  = Next (mkReq (user Samples.authenticated) (Some Samples.simpleTenant)).
Proof.
  apply (X1_module_check_agrees_with_canAccessModule "clients"
           (Samples.dbWith Samples.simpleTenant 0) 2000 Samples.authenticated
           "tenant-1" Samples.simpleTenant); reflexivity.
Defined.

(** X2: the plans a module denial suggests are exactly the plans that
    have the module, so the denied tenant's own plan is never among them
    and the list is empty exactly when no plan has the module; they need
    not be higher tiers (a MANAGERIAL tenant denied [basic_reports] is
    pointed to SIMPLE and COMPOSITE). *)
Theorem X2_module_denial_suggestions (m : string) (p : PlanType) :
  canAccessModule p m = false ->
  ~ In p (getSuggestedPlans m)
  /\ (forall q, In q (getSuggestedPlans m) <-> canAccessModule q m = true)
  /\ (getSuggestedPlans m = [] <-> forall q, canAccessModule q m = false)
  /\ (canAccessModule MANAGERIAL "basic_reports" = false
      /\ getSuggestedPlans "basic_reports" = [SIMPLE; COMPOSITE]).
Proof.
  intros Hp. unfold canAccessModule in *.
  split; [|split; [|split]].
  - intros Hin. apply getSuggestedPlans_spec in Hin. congruence.
  - intros q. apply getSuggestedPlans_spec.
  - split.
    + intros Hnil q.
      destruct (includes (PLAN_MODULES q) m) eqn:E; [|reflexivity].
      apply getSuggestedPlans_spec in E. rewrite Hnil in E. contradiction.
    + intros Hall.
      destruct (getSuggestedPlans m) as [|q qs] eqn:E; [reflexivity|].
      assert (Hq : In q (getSuggestedPlans m)) by (rewrite E; now left).
      apply getSuggestedPlans_spec in Hq. rewrite Hall in Hq. discriminate.
  - split; reflexivity.
Qed.

Lemma X2_module_denial_suggestions_witness :
  ~ In SIMPLE (getSuggestedPlans "projects").
Proof.
  exact (proj1 (X2_module_denial_suggestions "projects" SIMPLE eq_refl)).
Defined.

(** X3: every plan a limit denial suggests is a strictly higher tier than
    the current one and has, for every resource kind, either no ceiling or
    a higher ceiling than the current plan; the list does not depend on
    the resource kind and is empty for MANAGERIAL. *)
Theorem X3_limit_suggestions_raise_ceiling
    (r : ResourceType) (p q : PlanType) :
  In q (getSuggestedPlansForLimit r p) ->
  PLAN_LEVELS p < PLAN_LEVELS q
  /\ (maxAllowedFor (PLAN_LIMITS q) r = -1
      \/ maxAllowedFor (PLAN_LIMITS p) r < maxAllowedFor (PLAN_LIMITS q) r)
  /\ getSuggestedPlansForLimit r MANAGERIAL = []
  /\ (forall r', getSuggestedPlansForLimit r' p = getSuggestedPlansForLimit r p).
Proof.
  intros Hin. unfold getSuggestedPlansForLimit in *.
  apply filter_In in Hin as [_ Hlvl]. apply Z.gtb_gt in Hlvl.
  split; [lia|]. split; [|split; [reflexivity | reflexivity]].
  destruct p, q, r; simpl in *; lia.
Qed.

Lemma X3_limit_suggestions_raise_ceiling_witness :
  PLAN_LEVELS SIMPLE < PLAN_LEVELS COMPOSITE
  /\ (maxAllowedFor (PLAN_LIMITS COMPOSITE) projectsRes = -1
      \/ maxAllowedFor (PLAN_LIMITS SIMPLE) projectsRes
         < maxAllowedFor (PLAN_LIMITS COMPOSITE) projectsRes).
Proof.
  assert (Hin : In COMPOSITE (getSuggestedPlansForLimit projectsRes SIMPLE))
    by (simpl; tauto).
  destruct (X3_limit_suggestions_raise_ceiling projectsRes SIMPLE COMPOSITE Hin)
    as (H1 & H2 & _).
  split; [exact H1 | exact H2].
Defined.

(** X4: the feature-flag check decides exactly as the exported
    [hasFeature] on the plan of the attached snapshot; a denial is 403
    FEATURE_NOT_AVAILABLE and suggests exactly the plans that have the
    feature: never the tenant's own plan, always MANAGERIAL. *)
Theorem X4_feature_check_agrees_with_hasFeature
    (f : Feature) (req : Request) (t : TenantRow) :
  tenant req = Some t ->
  (hasFeature (planType t) f = true -> checkPlanFeature f req = Next req)
  /\ (hasFeature (planType t) f = false ->
      exists body,
        checkPlanFeature f req = Respond 403 body
        /\ lookup "code" body = Some (JStr "FEATURE_NOT_AVAILABLE")
        /\ lookup "suggestedPlans" body
           = Some (jsPlans (getSuggestedPlansForFeature f))
        /\ ~ In (planType t) (getSuggestedPlansForFeature f)
        /\ In MANAGERIAL (getSuggestedPlansForFeature f))
  /\ (forall q, In q (getSuggestedPlansForFeature f) <-> hasFeature q f = true).
Proof.
  intros Ht. unfold hasFeature, checkPlanFeature. rewrite Ht. simpl.
  assert (Hspec : forall q, In q (getSuggestedPlansForFeature f)
                            <-> features (PLAN_LIMITS q) f = true).
  { intros q. unfold getSuggestedPlansForFeature. rewrite filter_In.
    unfold planKeys. split; [tauto|].
    intros H. split; [destruct q; simpl; tauto | exact H]. }
  split; [|split].
  - intros Hf. rewrite Hf. reflexivity.
  - intros Hf. rewrite Hf. simpl. eexists.
    split; [reflexivity|]. split; [reflexivity|]. split; [reflexivity|].
    split.
    + intros Hin. apply Hspec in Hin. congruence.
    + apply Hspec. destruct f; reflexivity.
  - exact Hspec.
Qed.

Lemma X4_feature_check_agrees_with_hasFeature_witness :
  checkPlanFeature billing (Samples.withSnapshot Samples.expiredTenant)
  = Next (Samples.withSnapshot Samples.expiredTenant).
Proof.
  exact (proj1 (X4_feature_check_agrees_with_hasFeature billing
                  (Samples.withSnapshot Samples.expiredTenant)
                  Samples.expiredTenant eq_refl) eq_refl).
Defined.

Lemma countWhere_others (rows others : list string) (tid : string) :
  Forall (fun x => x <> tid) others ->
  countWhere (rows ++ others) tid = countWhere rows tid.
Proof.
  intros Hall. unfold countWhere. rewrite filter_app.
  replace (filter (fun t => String.eqb t tid) others) with (@nil string).
  - now rewrite app_nil_r.
  - symmetry. induction Hall as [|x xs Hx _ IH]; simpl; [reflexivity|].
    apply String.eqb_neq in Hx. now rewrite Hx.
Qed.

Lemma fileRows_others (rows others : list (string * option Z)) (tid : string) :
  Forall (fun f => fst f <> tid) others ->
  filter (fun f => String.eqb (fst f) tid) (rows ++ others)
  = filter (fun f => String.eqb (fst f) tid) rows.
Proof.
  intros Hall. rewrite filter_app.
  replace (filter (fun f => String.eqb (fst f) tid) others)
    with (@nil (string * option Z)).
  - now rewrite app_nil_r.
  - symmetry. induction Hall as [|x xs Hx _ IH]; simpl; [reflexivity|].
    apply String.eqb_neq in Hx. now rewrite Hx.
Qed.

(** X5: the quota of a tenant is counted on its own rows only: adding
    user, client, project and file rows of other tenants to the store does
    not change the answer of the resource-limit check. *)
Theorem X5_quota_ignores_other_tenants
    (r : ResourceType) (db : Db) (req : Request) (tid : string)
    (us cs ps : list string) (fs : list (string * option Z)) :
  userTenantId req = Some tid ->
  Forall (fun x => x <> tid) us ->
  Forall (fun x => x <> tid) cs ->
  Forall (fun x => x <> tid) ps ->
  Forall (fun f => fst f <> tid) fs ->
  checkPlanLimits r
    (mkDb (online db) (tenantRows db) (userRows db ++ us)
       (clientRows db ++ cs) (projectRows db ++ ps) (fileRows db ++ fs))
    req
  = checkPlanLimits r db req.
Proof.
  intros Hu Hus Hcs Hps Hfs.
  unfold checkPlanLimits, checkPlanLimitsWith. rewrite Hu.
  destruct (tenant req) as [t|]; [|reflexivity].
  replace (currentCountFor
             (mkDb (online db) (tenantRows db) (userRows db ++ us)
                (clientRows db ++ cs) (projectRows db ++ ps)
                (fileRows db ++ fs)) tid r)
    with (currentCountFor db tid r); [reflexivity|].
  destruct r; unfold currentCountFor, file_findMany, query; simpl;
    rewrite ?countWhere_others, ?fileRows_others by assumption; reflexivity.
Qed.

Lemma X5_quota_ignores_other_tenants_witness :
  checkPlanLimits clients
    (mkDb true [Samples.simpleTenant] (["tenant-1"] ++ ["tenant-2"])
       (repeat "tenant-1" 49 ++ repeat "tenant-2" 500) ([] ++ [])
       ([] ++ [("tenant-2", Some 7)]))
    (Samples.withSnapshot Samples.simpleTenant)
  = checkPlanLimits clients (Samples.dbWith Samples.simpleTenant 49)
      (Samples.withSnapshot Samples.simpleTenant).
Proof.
  apply (X5_quota_ignores_other_tenants clients
           (Samples.dbWith Samples.simpleTenant 49)
           (Samples.withSnapshot Samples.simpleTenant) "tenant-1"
           ["tenant-2"] (repeat "tenant-2" 500) []
           [("tenant-2", Some 7)]).
  - reflexivity.
  - repeat constructor; discriminate.
  - apply Forall_forall. intros x Hx. apply repeat_spec in Hx. subst x.
    discriminate.
  - constructor.
  - repeat constructor; discriminate.
Defined.

(** X6: with the store and the clock unchanged, a request the
    module-access check has passed on passes it again and leaves
    unchanged, and the resource-limit and feature-flag checks hand on the
    very request they received. *)
Theorem X6_checks_idempotent
    (m : string) (db : Db) (now : Z) (req req' : Request) :
  checkPlanAccess m db now req = Next req' ->
  checkPlanAccess m db now req' = Next req'
  /\ (forall r req'', checkPlanLimits r db req' = Next req'' -> req'' = req')
  /\ (forall f req'', checkPlanFeature f req' = Next req'' -> req'' = req').
Proof.
  intros H. split; [|split].
  - revert H. unfold checkPlanAccess.
    destruct (userTenantId req) as [tid|] eqn:Hu; [|discriminate].
    destruct (tenant_findUnique db tid) as [[t|]|e] eqn:Hf; simpl;
      try discriminate.
    destruct (isActive t) eqn:Ha; simpl; [|discriminate].
    destruct (expired now t) eqn:He; simpl; [discriminate|].
    destruct (includes (PLAN_MODULES (planType t)) m) eqn:Hm; simpl;
      [|discriminate].
    intros H. injection H as <-.
    assert (Hu' : userTenantId (mkReq (user req) (Some t)) = Some tid)
      by exact Hu.
    rewrite Hu', Hf. simpl. rewrite Ha, He, Hm. reflexivity.
  - intros r req''. unfold checkPlanLimits, checkPlanLimitsWith.
    destruct (tenant req'); [|discriminate].
    destruct (userTenantId req'); [|discriminate].
    destruct (currentCountFor db s r); simpl; [|discriminate].
    destruct (negb _ && _); simpl; [discriminate|].
    intros E. now injection E.
  - intros f req''. unfold checkPlanFeature.
    destruct (tenant req'); [|discriminate]. simpl.
    destruct (negb _); simpl; [discriminate|].
    intros E. now injection E.
Qed.

Lemma X6_checks_idempotent_witness :
  checkPlanAccess "clients" (Samples.dbWith Samples.simpleTenant 0) 2000
    (Samples.withSnapshot Samples.simpleTenant)
  = Next (Samples.withSnapshot Samples.simpleTenant).
Proof.
  exact (proj1 (X6_checks_idempotent "clients"
                  (Samples.dbWith Samples.simpleTenant 0) 2000
                  Samples.authenticated
                  (Samples.withSnapshot Samples.simpleTenant) eq_refl)).
Defined.

(** X7: when the store rejects its queries, the module-access check of a
    request that carries a tenant id, and the resource-limit check of a
    request that carries a tenant id and a snapshot, answer 500 with the
    fixed body of code INTERNAL_ERROR, whatever the module, the resource
    kind and the plan. *)
Theorem X7_store_failure_is_internal_error
    (db : Db) (now : Z) (req : Request) (tid : string) :
  online db = false ->
  userTenantId req = Some tid ->
  (forall m,
     checkPlanAccess m db now req
     = Respond 500 [("error", JStr "Erro interno do servidor");
                    ("code", JStr "INTERNAL_ERROR")])
  /\ (forall r t,
        tenant req = Some t ->
        checkPlanLimits r db req
        = Respond 500 [("error", JStr "Erro interno do servidor");
                       ("code", JStr "INTERNAL_ERROR")]).
Proof.
  intros Hoff Hu. split.
  - intros m. unfold checkPlanAccess, tenant_findUnique, query.
    rewrite Hu, Hoff. reflexivity.
  - intros r t Ht. unfold checkPlanLimits, checkPlanLimitsWith.
    rewrite Ht, Hu.
    destruct r; unfold currentCountFor, file_findMany, query;
      rewrite Hoff; reflexivity.
Qed.

Lemma X7_store_failure_is_internal_error_witness :
  checkPlanAccess "clients" (mkDb false [Samples.simpleTenant] [] [] [] [])
    2000 Samples.authenticated
  = Respond 500 [("error", JStr "Erro interno do servidor");
                 ("code", JStr "INTERNAL_ERROR")].
Proof.
  exact (proj1 (X7_store_failure_is_internal_error
                  (mkDb false [Samples.simpleTenant] [] [] [] []) 2000
                  Samples.authenticated "tenant-1" eq_refl eq_refl)
           "clients").
Defined.

Lemma expired_lapsed (now : Z) (t : TenantRow) :
  expired now t = Tenant.lapsed now t.
Proof.
  unfold expired, Tenant.lapsed. destruct (expiresAt t); [|reflexivity].
  apply Z.gtb_ltb.
Qed.

(** The tenant middleware passes a request on exactly when the request
    carries a tenant id whose tenant is found, active and not expired. *)
Lemma tenantMiddleware_passes (db : Db) (now : Z) (req : Request)
    (client client' : Tenant.Client) :
  Tenant.tenantMiddleware db now req client = (client', Tenant.NextOk) ->
  exists tid t,
    userTenantId req = Some tid
    /\ tenant_findUnique db tid = Ok (Some t)
    /\ isActive t = true /\ expired now t = false.
Proof.
  unfold Tenant.tenantMiddleware, Tenant.tenantMiddlewareBody.
  destruct (userTenantId req) as [tid|]; [|discriminate].
  destruct (tenant_findUnique db tid) as [[t|]|e] eqn:Hf; simpl;
    try discriminate.
  destruct (isActive t) eqn:Ha; simpl; [|discriminate].
  destruct (Tenant.lapsed now t) eqn:He; [discriminate|].
  intros _. exists tid, t. rewrite expired_lapsed. auto.
Qed.

(** X8: a request the tenant middleware has passed on gets, from the
    module-access check run on the same store at the same time, either
    through or 403 PLAN_ACCESS_DENIED: behind the tenant middleware the
    answers INVALID_TOKEN, TENANT_NOT_FOUND, TENANT_INACTIVE, PLAN_EXPIRED
    and INTERNAL_ERROR of the check do not occur. *)
Theorem X8_lifecycle_denials_unreachable_behind_tenantMiddleware
    (m : string) (db : Db) (now : Z) (req : Request)
    (client client' : Tenant.Client) :
  Tenant.tenantMiddleware db now req client = (client', Tenant.NextOk) ->
  (exists t, checkPlanAccess m db now req = Next (mkReq (user req) (Some t)))
  \/ (exists body,
        checkPlanAccess m db now req = Respond 403 body
        /\ lookup "code" body = Some (JStr "PLAN_ACCESS_DENIED")).
Proof.
  intros Hmw.
  destruct (tenantMiddleware_passes _ _ _ _ _ Hmw)
    as (tid & t & Hu & Hf & Ha & He).
  unfold checkPlanAccess. rewrite Hu, Hf. simpl. rewrite Ha, He. simpl.
  destruct (includes (PLAN_MODULES (planType t)) m); simpl.
  - left. exists t. reflexivity.
  - right. eexists. split; reflexivity.
Qed.

Lemma X8_lifecycle_denials_unreachable_behind_tenantMiddleware_witness :
  (exists t,
     checkPlanAccess "billing" Samples.twoTenants 0 Samples.requestOfA
     = Next (mkReq (user Samples.requestOfA) (Some t)))
  \/ (exists body,
        checkPlanAccess "billing" Samples.twoTenants 0 Samples.requestOfA
        = Respond 403 body
        /\ lookup "code" body = Some (JStr "PLAN_ACCESS_DENIED")).
Proof.
  apply (X8_lifecycle_denials_unreachable_behind_tenantMiddleware "billing"
           Samples.twoTenants 0 Samples.requestOfA [] ["tenant-A"]).
  reflexivity.
Defined.

(** X9: a tenant with nothing stored of a resource (current count 0)
    passes the resource-limit check for every plan and resource kind but
    one: projects on SIMPLE, whose ceiling is 0. *)
Theorem X9_empty_tenant_passes_unless_ceiling_zero
    (r : ResourceType) (db : Db) (req : Request)
    (t : TenantRow) (tid : string) :
  tenant req = Some t ->
  userTenantId req = Some tid ->
  currentCountFor db tid r = Ok 0 ->
  (checkPlanLimits r db req = Next req
   <-> ~ (planType t = SIMPLE /\ r = projectsRes)).
Proof.
  intros Ht Hu Hn. unfold checkPlanLimits.
  rewrite (checkPlanLimitsWith_decision PLAN_LIMITS r db req t tid 0 Ht Hu Hn).
  destruct (planType t), r; simpl; split; intros H;
    try reflexivity; try discriminate;
    try (intros [? ?]; discriminate);
    try (exfalso; apply H; split; reflexivity).
Qed.

Lemma X9_empty_tenant_passes_unless_ceiling_zero_witness :
  checkPlanLimits storage (Samples.dbWith Samples.simpleTenant 0)
    (Samples.withSnapshot Samples.simpleTenant)
  = Next (Samples.withSnapshot Samples.simpleTenant)
  <-> ~ (SIMPLE = SIMPLE /\ storage = projectsRes).
Proof.
  apply (X9_empty_tenant_passes_unless_ceiling_zero storage
           (Samples.dbWith Samples.simpleTenant 0)
           (Samples.withSnapshot Samples.simpleTenant)
           Samples.simpleTenant "tenant-1"); reflexivity.
Defined.

(** ** Interceptor and tenant middleware *)

Lemma assign_assign (k : string) (v1 v2 : JsVal) (ps : Props) :
  assign k v2 (assign k v1 ps) = assign k v2 ps.
Proof.
  induction ps as [|[k' v'] ps IH]; simpl.
  - now rewrite String.eqb_refl.
  - destruct (String.eqb k k') eqn:E; simpl.
    + now rewrite String.eqb_refl.
    + now rewrite E, IH.
Qed.

Lemma bind_ext {A B} (r : Result A) (k1 k2 : A -> Result B) :
  (forall a, k1 a = k2 a) -> bind r k1 = bind r k2.
Proof. intros H. destruct r; simpl; [apply H | reflexivity]. Qed.

Lemma bind_Ok_r {A} (r : Result A) : bind r Ok = r.
Proof. now destruct r. Qed.

(** Setting a property twice on a value is setting it once to the second
    value, and fails the same way. *)
Lemma set_twice (o : JsVal) (k : string) (v1 v2 : JsVal) :
  bind (set o k v1) (fun o' => set o' k v2) = set o k v2.
Proof. destruct o; simpl; try reflexivity; now rewrite assign_assign. Qed.

Lemma set_get (o o' : JsVal) (k : string) (v : JsVal) :
  set o k v = Ok o' -> get o' k = Ok v /\ truthy o' = true.
Proof.
  destruct o; simpl; try discriminate;
    intros H; injection H as <-; simpl; now rewrite lookup_assign_same.
Qed.

(** A failing [set] fails whatever the value. *)
Lemma set_Throw (o : JsVal) (k : string) (v1 v2 : JsVal) (e : Error) :
  set o k v1 = Throw e -> set o k v2 = Throw e.
Proof. destruct o; simpl; try discriminate; auto. Qed.

Lemma setWhereTenant_twice (t1 t2 : string) (a : JsVal) :
  bind (setWhereTenant t1 a) (setWhereTenant t2) = setWhereTenant t2 a.
Proof.
  unfold setWhereTenant.
  destruct (get a "where") as [w|e] eqn:Hw; simpl; [|reflexivity].
  destruct (set w "tenantId" (JStr t1)) as [w1|e] eqn:H1; simpl;
    [|now rewrite (set_Throw _ _ _ (JStr t2) _ H1)].
  pose proof (set_twice w "tenantId" (JStr t1) (JStr t2)) as Hww.
  rewrite H1 in Hww. simpl in Hww.
  destruct (set a "where" w1) as [a1|e] eqn:Ha1; simpl.
  - destruct (set_get _ _ _ _ Ha1) as [Hg _]. rewrite Hg. simpl.
    rewrite Hww.
    destruct (set w "tenantId" (JStr t2)) as [w2|e]; simpl; [|reflexivity].
    pose proof (set_twice a "where" w1 w2) as Haa.
    rewrite Ha1 in Haa. exact Haa.
  - rewrite <- Hww.
    destruct (set w1 "tenantId" (JStr t2)) as [w2|e2] eqn:H2; simpl.
    + symmetry. exact (set_Throw _ _ _ w2 _ Ha1).
    + destruct w; simpl in H1; try discriminate;
        injection H1 as <-; simpl in H2; discriminate.
Qed.

Lemma setWhereTenant_result (t : string) (a a' : JsVal) :
  setWhereTenant t a = Ok a' ->
  truthy a' = true /\ ensureWhere a' = Ok a'.
Proof.
  unfold setWhereTenant. intros H.
  apply bind_Ok_inv in H as (w & _ & H).
  apply bind_Ok_inv in H as (w' & Hw' & Ha').
  destruct (set_get _ _ _ _ Ha') as [Hg Ht]. split; [exact Ht|].
  unfold ensureWhere. rewrite Hg. simpl.
  destruct (set_get _ _ _ _ Hw') as [_ Htw]. now rewrite Htw.
Qed.

Lemma setDataTenant_twice (t1 t2 : string) (a : JsVal) :
  bind (setDataTenant t1 a) (setDataTenant t2) = setDataTenant t2 a.
Proof.
  unfold setDataTenant at 1 3.
  destruct (get a "data") as [d|e] eqn:Hd; simpl; [|reflexivity].
  destruct (truthy d) eqn:Htd; simpl.
  - destruct (set d "tenantId" (JStr t1)) as [d1|e] eqn:H1; simpl.
    + pose proof (set_twice d "tenantId" (JStr t1) (JStr t2)) as Hdd.
      rewrite H1 in Hdd. simpl in Hdd.
      destruct (set_get _ _ _ _ H1) as [_ Htd1].
      destruct (set a "data" d1) as [a1|e] eqn:Ha1; simpl.
      * unfold setDataTenant.
        destruct (set_get _ _ _ _ Ha1) as [Hg _]. rewrite Hg. simpl.
        rewrite Htd1, Hdd.
        destruct (set d "tenantId" (JStr t2)) as [d2|e]; simpl; [|reflexivity].
        pose proof (set_twice a "data" d1 d2) as Haa.
        rewrite Ha1 in Haa. exact Haa.
      * rewrite <- Hdd.
        destruct (set d1 "tenantId" (JStr t2)) as [d2|e2] eqn:H2; simpl.
        -- symmetry. exact (set_Throw _ _ _ d2 _ Ha1).
        -- destruct d; simpl in H1; try discriminate;
             injection H1 as <-; simpl in H2; discriminate.
    + now rewrite (set_Throw _ _ _ (JStr t2) _ H1).
  - unfold setDataTenant. rewrite Hd. simpl. now rewrite Htd.
Qed.

(** An interceptor run after another one wipes out what the first did:
    the pair acts, and fails, as the second alone. *)
Lemma interceptor_overwrites (t1 t2 : string) (p : Params) :
  bind (interceptor t1 p) (interceptor t2) = interceptor t2 p.
Proof.
  destruct p as [m act a].
  unfold interceptor, isAction. simpl.
  destruct (isTenantModel m) eqn:Hm;
    [|simpl; unfold interceptor; simpl; now rewrite Hm].
  destruct (String.eqb act "findUnique" || String.eqb act "findFirst") eqn:E1.
  { rewrite <- (setWhereTenant_twice t1 t2 a).
    destruct (setWhereTenant t1 a) as [a1|e]; simpl; [|reflexivity].
    unfold interceptor, isAction. simpl. now rewrite Hm, E1. }
  destruct (String.eqb act "findMany") eqn:E2.
  { set (a0 := if negb (truthy a) then JObj [("where", JObj [])] else a).
    destruct (ensureWhere a0) as [a1|e] eqn:H1; simpl; [|reflexivity].
    rewrite <- (setWhereTenant_twice t1 t2 a1).
    destruct (setWhereTenant t1 a1) as [a2|e] eqn:H2; simpl; [|reflexivity].
    unfold interceptor, isAction. simpl. rewrite Hm, E1, E2.
    destruct (setWhereTenant_result _ _ _ H2) as [Ht He].
    rewrite Ht. simpl. rewrite He. reflexivity. }
  destruct (String.eqb act "create" || String.eqb act "createMany") eqn:E3.
  { rewrite <- (setDataTenant_twice t1 t2 a).
    destruct (setDataTenant t1 a) as [a1|e]; simpl; [|reflexivity].
    unfold interceptor, isAction. simpl. now rewrite Hm, E1, E2, E3. }
  destruct (String.eqb act "update" || String.eqb act "updateMany") eqn:E4.
  { destruct (ensureWhere a) as [a1|e] eqn:H1; simpl; [|reflexivity].
    rewrite <- (setWhereTenant_twice t1 t2 a1).
    destruct (setWhereTenant t1 a1) as [a2|e] eqn:H2; simpl; [|reflexivity].
    unfold interceptor, isAction. simpl. rewrite Hm, E1, E2, E3, E4.
    destruct (setWhereTenant_result _ _ _ H2) as [_ He].
    rewrite He. reflexivity. }
  destruct (String.eqb act "delete" || String.eqb act "deleteMany") eqn:E5.
  { destruct (ensureWhere a) as [a1|e] eqn:H1; simpl; [|reflexivity].
    rewrite <- (setWhereTenant_twice t1 t2 a1).
    destruct (setWhereTenant t1 a1) as [a2|e] eqn:H2; simpl; [|reflexivity].
    unfold interceptor, isAction. simpl. rewrite Hm, E1, E2, E3, E4, E5.
    destruct (setWhereTenant_result _ _ _ H2) as [_ He].
    rewrite He. reflexivity. }
  simpl. unfold interceptor, isAction. simpl.
  now rewrite Hm, E1, E2, E3, E4, E5.
Qed.

(** X10: however many interceptors the requests so far have installed on
    the shared client, a query gets through it exactly as through the
    interceptor installed last alone, with the same result or the same
    error: the earlier ones leave no trace. *)
Theorem X10_client_acts_as_last_interceptor
    (client : Client) (tid : string) (params : Params) :
  runQuery (use client tid) params = interceptor tid params.
Proof.
  unfold use. revert params.
  induction client as [|t0 c IH]; intros params; simpl.
  - apply bind_Ok_r.
  - rewrite (bind_ext _ _ (interceptor tid)) by apply IH.
    apply interceptor_overwrites.
Qed.

(** X11: on a listed model, a [findUnique], [findFirst], [findMany],
    [update], [updateMany], [delete] or [deleteMany] whose arguments are
    an object with an object under [where] gets through with the tenant id
    set in [where] and everything else the caller passed (the other filter
    criteria, and the other arguments such as [data], [select],
    [orderBy]) as it was. *)
Theorem X11_interceptor_keeps_other_criteria
    (tid m act : string) (aps wps : Props) :
  includes tenantModels m = true ->
  In act whereActions ->
  lookup "where" aps = Some (JObj wps) ->
  exists aps' wps',
    interceptor tid (mkParams (Some m) act (JObj aps))
    = Ok (mkParams (Some m) act (JObj aps'))
    /\ lookup "where" aps' = Some (JObj wps')
    /\ lookup "tenantId" wps' = Some (JStr tid)
    /\ (forall k, k <> "tenantId" -> lookup k wps' = lookup k wps)
    /\ (forall k, k <> "where" -> lookup k aps' = lookup k aps).
Proof.
  intros Hm Hact Hw.
  exists (assign "where" (JObj (assign "tenantId" (JStr tid) wps)) aps),
         (assign "tenantId" (JStr tid) wps).
  split; [|split; [|split; [|split]]].
  - unfold interceptor.
    replace (isTenantModel (model (mkParams (Some m) act (JObj aps))))
      with true by (symmetry; exact Hm).
    unfold isAction, ensureWhere, setWhereTenant. simpl in Hact |- *.
    repeat (destruct Hact as [Hact|Hact];
            [subst act; simpl; rewrite ?Hw; simpl; rewrite ?Hw; reflexivity|]).
    contradiction.
  - apply lookup_assign_same.
  - apply lookup_assign_same.
  - intros k Hk. now apply lookup_assign_other.
  - intros k Hk. now apply lookup_assign_other.
Qed.

Lemma X11_interceptor_keeps_other_criteria_witness :
  exists aps' wps',
    interceptor "tenant-A"
      (mkParams (Some "Task") "updateMany"
         (JObj [("where", JObj [("status", JStr "TODO");
                                ("tenantId", JStr "tenant-B")]);
                ("data", JObj [("status", JStr "DONE")])]))
    = Ok (mkParams (Some "Task") "updateMany" (JObj aps'))
    /\ lookup "where" aps' = Some (JObj wps')
    /\ lookup "tenantId" wps' = Some (JStr "tenant-A")
    /\ (forall k, k <> "tenantId" ->
                  lookup k wps'
                  = lookup k [("status", JStr "TODO");
                              ("tenantId", JStr "tenant-B")])
    /\ (forall k, k <> "where" ->
                  lookup k aps'
                  = lookup k
                      [("where", JObj [("status", JStr "TODO");
                                       ("tenantId", JStr "tenant-B")]);
                       ("data", JObj [("status", JStr "DONE")])]).
Proof.
  apply (X11_interceptor_keeps_other_criteria "tenant-A" "Task" "updateMany").
  - reflexivity.
  - simpl. tauto.
  - reflexivity.
Defined.

(** X12: on a listed model, a call without arguments is rejected with a
    TypeError by the interceptor for every action it rewrites except
    [findMany], which gets through with [where] holding just the tenant
    id; so is a [findUnique] or [findFirst] whose arguments have no
    [where]. *)
Theorem X12_interceptor_without_arguments (tid m : string) :
  includes tenantModels m = true ->
  (forall act,
     In act ["findUnique"; "findFirst"; "create"; "createMany"; "update";
             "updateMany"; "delete"; "deleteMany"] ->
     exists msg,
       interceptor tid (mkParams (Some m) act JUndefined)
       = Throw (TypeError msg))
  /\ interceptor tid (mkParams (Some m) "findMany" JUndefined)
     = Ok (mkParams (Some m) "findMany"
             (JObj [("where", JObj [("tenantId", JStr tid)])]))
  /\ (forall act others,
        In act ["findUnique"; "findFirst"] ->
        lookup "where" others = None ->
        exists msg,
          interceptor tid (mkParams (Some m) act (JObj others))
          = Throw (TypeError msg)).
Proof.
  intros Hm.
  assert (Hmodel : forall act a,
            isTenantModel (model (mkParams (Some m) act a)) = true)
    by (intros; exact Hm).
  split; [|split].
  - intros act Hact. unfold interceptor. rewrite Hmodel.
    unfold isAction. simpl in Hact |- *.
    repeat (destruct Hact as [Hact|Hact];
            [subst act; simpl; eexists; reflexivity|]).
    contradiction.
  - unfold interceptor. rewrite Hmodel. reflexivity.
  - intros act others Hact Hnone. unfold interceptor. rewrite Hmodel.
    unfold isAction, setWhereTenant. simpl in Hact |- *.
    repeat (destruct Hact as [Hact|Hact];
            [subst act; simpl; rewrite Hnone; simpl; eexists; reflexivity|]).
    contradiction.
Qed.

Lemma X12_interceptor_without_arguments_witness :
  interceptor "tenant-A" (mkParams (Some "User") "findMany" JUndefined)
  = Ok (mkParams (Some "User") "findMany"
          (JObj [("where", JObj [("tenantId", JStr "tenant-A")])])).
Proof.
  exact (proj1 (proj2 (X12_interceptor_without_arguments "tenant-A" "User"
                         eq_refl))).
Defined.

(** X13: a request the tenant middleware turns down while the store is
    reachable installs nothing on the shared client and is answered by the
    error handler with 401 (no tenant id), 404 (tenant not found) or 403
    (tenant inactive or expired) and a body of just [status] and
    [message]: the body has no [code]. *)
Theorem X13_tenantMiddleware_rejection
    (nodeEnv : option string) (db : Db) (now : Z) (req : Request)
    (client client' : Client) (e : Error) :
  online db = true ->
  tenantMiddleware db now req client = (client', NextError e) ->
  client' = client
  /\ exists status msg,
       In (status, msg)
          [(401, "Tenant ID não encontrado"); (404, "Tenant não encontrado");
           (403, "Tenant inativo"); (403, "Assinatura expirada")]
       /\ e = AppError msg status
       /\ ErrorHandler.respondTo nodeEnv e
          = Respond status [("status", JStr "error"); ("message", JStr msg)]
       /\ codeOf (ErrorHandler.respondTo nodeEnv e) = None.
Proof.
  intros Hon. unfold tenantMiddleware, tenantMiddlewareBody,
    tenant_findUnique, query. rewrite Hon.
  destruct (userTenantId req) as [tid|]; simpl.
  - destruct (find _ (tenantRows db)) as [t|]; simpl.
    + destruct (isActive t); simpl.
      * destruct (lapsed now t); intros H; inversion H; subst.
        split; [reflexivity|].
        exists 403, "Assinatura expirada". simpl. tauto.
      * intros H; inversion H; subst. split; [reflexivity|].
        exists 403, "Tenant inativo". simpl. tauto.
    + intros H; inversion H; subst. split; [reflexivity|].
      exists 404, "Tenant não encontrado". simpl. tauto.
  - intros H; inversion H; subst. split; [reflexivity|].
    exists 401, "Tenant ID não encontrado". simpl. tauto.
Qed.

Lemma X13_tenantMiddleware_rejection_witness :
  ["tenant-A"] = ["tenant-A"]
  /\ exists status msg,
       In (status, msg)
          [(401, "Tenant ID não encontrado"); (404, "Tenant não encontrado");
           (403, "Tenant inativo"); (403, "Assinatura expirada")]
       /\ AppError "Tenant inativo" 403 = AppError msg status
       /\ ErrorHandler.respondTo None (AppError "Tenant inativo" 403)
          = Respond status [("status", JStr "error"); ("message", JStr msg)]
       /\ codeOf (ErrorHandler.respondTo None (AppError "Tenant inativo" 403))
          = None.
Proof.
  apply (X13_tenantMiddleware_rejection None
           (Samples.dbWith Samples.inactiveTenant 0) 2000
           Samples.authenticated ["tenant-A"] ["tenant-A"]
           (AppError "Tenant inativo" 403)); reflexivity.
Defined.

Lemma tenantMiddleware_appends (db : Db) (now : Z) (req : Request)
    (client : Client) :
  fst (tenantMiddleware db now req client)
  = (client ++ fst (tenantMiddleware db now req []))%list.
Proof.
  unfold tenantMiddleware, tenantMiddlewareBody, use.
  destruct (userTenantId req) as [tid|]; simpl;
    [|now rewrite app_nil_r].
  destruct (tenant_findUnique db tid) as [[t|]|e]; simpl;
    try now rewrite app_nil_r.
  destruct (negb (isActive t)); [now rewrite app_nil_r|].
  destruct (lapsed now t); [now rewrite app_nil_r|].
  reflexivity.
Qed.

(** X14: the shared client only grows: after any sequence of requests it
    holds the interceptors it had, followed by one more for every request
    that passed the tenant middleware, in order of arrival, also when the
    tenant already had one; none is ever removed, so the number installed
    is the number there was plus the number of requests passed. *)
Theorem X14_interceptors_accumulate
    (db : Db) (now : Z) (reqs : list Request) (client : Client) :
  enterAll db now reqs client
  = (client
     ++ flat_map (fun req => fst (tenantMiddleware db now req [])) reqs)%list
  /\ List.length (enterAll db now reqs client)
     = (List.length client
        + List.length
            (filter (fun req =>
                       match snd (tenantMiddleware db now req []) with
                       | NextOk => true
                       | NextError _ => false
                       end) reqs))%nat.
Proof.
  assert (Hclosed : forall reqs client,
    enterAll db now reqs client
    = (client
       ++ flat_map (fun req => fst (tenantMiddleware db now req [])) reqs)%list).
  { clear. intros reqs. unfold enterAll.
    induction reqs as [|req reqs IH]; intros client; simpl.
    - now rewrite app_nil_r.
    - rewrite IH, tenantMiddleware_appends. now rewrite <- app_assoc. }
  split; [apply Hclosed|].
  rewrite Hclosed, length_app. f_equal.
  clear. induction reqs as [|req reqs IH]; simpl; [reflexivity|].
  rewrite length_app, IH.
  unfold tenantMiddleware at 1 3.
  destruct (tenantMiddlewareBody db now req []) as [c|e] eqn:E; simpl.
  - f_equal. revert E. unfold tenantMiddlewareBody, use.
    destruct (userTenantId req) as [tid|]; [|discriminate].
    destruct (tenant_findUnique db tid) as [[t|]|e]; simpl; try discriminate.
    destruct (negb (isActive t)); [discriminate|].
    destruct (lapsed now t); [discriminate|].
    intros H. injection H as <-. reflexivity.
  - reflexivity.
Qed.

(** ** Error handler and protected pipeline *)



(** X16: whatever error it is given, the error handler answers with a
    body whose [status] is the text error and that has neither [code] nor
    [error]; so for every failed login the error handler answers, the
    client's [login] reports its fallback text. *)
Theorem X16_errorHandler_body_shape
    (nodeEnv : option string) (error : ErrorHandler.Thrown)
    (console : list ErrorHandler.Thrown) :
  lookup "status" (snd (fst (ErrorHandler.errorHandler nodeEnv error console)))
  = Some (JStr "error")
  /\ lookup "code" (snd (fst (ErrorHandler.errorHandler nodeEnv error console)))
     = None
  /\ lookup "error" (snd (fst (ErrorHandler.errorHandler nodeEnv error console)))
     = None
  /\ ClientAuth.loginErrorMessage
       (snd (fst (ErrorHandler.errorHandler nodeEnv error console)))
     = JStr "Erro ao fazer login".
Proof.
  unfold ErrorHandler.errorHandler, ClientAuth.loginErrorMessage.
  destruct (ErrorHandler.cls error);
    repeat match goal with
           | |- context [if ?c then _ else _] => destruct c
           end;
    simpl; repeat split; reflexivity.
Qed.

(** ** Helpers of AppError.ts *)

(** X17: on a plain object, [validateRequiredFields] returns normally
    exactly when every required field is either an own property with a
    truthy value or, not being an own property, the name of a member
    inherited from [Object.prototype] (constructor, toString, ...); an own
    property holding 0, false, the empty string, null or undefined counts
    as absent.  Otherwise it throws an AppError of status 400 whose
    message lists the absent fields in the order they were required.
    Without required fields it accepts any object. *)
Theorem X17_validateRequiredFields (obj : Props) (fields : list string) :
  (Utils.validateRequiredFields obj fields = Ok tt
   <-> forall f, In f fields ->
                 (exists v, lookup f obj = Some v /\ truthy v = true)
                 \/ (lookup f obj = None
                     /\ In f Utils.objectPrototypeMembers))
  /\ (Utils.validateRequiredFields obj fields <> Ok tt ->
      Utils.validateRequiredFields obj fields
      = Throw (AppError
                 ("Campos obrigatórios ausentes: "
                  ++ String.concat ", "
                       (filter (Utils.fieldMissing obj) fields))
                 400))
  /\ Utils.validateRequiredFields obj [] = Ok tt
  /\ Utils.validateRequiredFields [] ["constructor"] = Ok tt.
Proof.
  unfold Utils.validateRequiredFields, Utils.missingFields.
  set (missing := filter (Utils.fieldMissing obj) fields).
  assert (Hpresent : forall f,
            Utils.fieldMissing obj f = false
            <-> (exists v, lookup f obj = Some v /\ truthy v = true)
                \/ (lookup f obj = None
                    /\ In f Utils.objectPrototypeMembers)).
  { intros f. unfold Utils.fieldMissing.
    destruct (lookup f obj) as [v|].
    - rewrite negb_false_iff. split.
      + intros Ht. left. eauto.
      + intros [(v' & Hv & Ht) | [Hn _]]; [congruence | discriminate].
    - rewrite negb_false_iff, includes_In. split.
      + intros Hin. right. auto.
      + intros [(v' & Hv & _) | [_ Hin]]; [discriminate | exact Hin]. }
  assert (Hmissing : missing = [] <->
            forall f, In f fields -> Utils.fieldMissing obj f = false).
  { unfold missing. split.
    - intros Hnil f Hin.
      destruct (Utils.fieldMissing obj f) eqn:E; [|reflexivity].
      assert (Hf : In f (filter (Utils.fieldMissing obj) fields))
        by (apply filter_In; auto).
      rewrite Hnil in Hf. contradiction.
    - intros Hall.
      destruct (filter _ fields) as [|f fs] eqn:E; [reflexivity|].
      assert (Hf : In f (filter (Utils.fieldMissing obj) fields))
        by (rewrite E; now left).
      apply filter_In in Hf as [Hin Hm]. rewrite (Hall f Hin) in Hm.
      discriminate. }
  split; [|split; [|split]].
  - transitivity (missing = []).
    + destruct missing as [|f fs]; simpl.
      * tauto.
      * split; discriminate.
    + rewrite Hmissing. split; intros H f Hin; apply Hpresent; auto.
  - destruct missing as [|f fs]; simpl; [intros H; now elim H | reflexivity].
  - reflexivity.
  - reflexivity.
Qed.

Lemma lookup_deleteProp (k field : string) (ps : Props) :
  lookup k (Utils.deleteProp field ps)
  = if String.eqb k field then None else lookup k ps.
Proof.
  unfold Utils.deleteProp.
  induction ps as [|[k' v] ps IH]; simpl.
  - now destruct (String.eqb k field).
  - destruct (String.eqb k' field) eqn:E; simpl.
    + apply String.eqb_eq in E. subst k'.
      rewrite IH. now destruct (String.eqb k field).
    + rewrite IH. destruct (String.eqb k k') eqn:E'; [|reflexivity].
      apply String.eqb_eq in E'. subst k'. now rewrite E.
Qed.

(** X18: the output of [sanitizeOutput] has none of the excluded fields,
    and every other field of the data with its value; sanitising twice
    changes nothing more; with the default list the output never has
    [passwordHash]. *)
Theorem X18_sanitizeOutput (data : Props) (excludeFields : list string) :
  (forall k,
     lookup k (Utils.sanitizeOutput data excludeFields)
     = if includes excludeFields k then None else lookup k data)
  /\ Utils.sanitizeOutput (Utils.sanitizeOutput data excludeFields) excludeFields
     = Utils.sanitizeOutput data excludeFields
  /\ lookup "passwordHash" (Utils.sanitizeOutputDefault data) = None.
Proof.
  assert (Hlookup : forall ex data k,
    lookup k (Utils.sanitizeOutput data ex)
    = if includes ex k then None else lookup k data).
  { clear. unfold Utils.sanitizeOutput.
    induction ex as [|f ex IH]; intros data k; simpl; [reflexivity|].
    rewrite IH, lookup_deleteProp.
    rewrite String.eqb_sym.
    destruct (String.eqb f k); simpl; [now destruct (includes ex k)|reflexivity]. }
  assert (Hkeys : forall ex data,
    Utils.sanitizeOutput data ex
    = filter (fun p => negb (includes ex (fst p))) data).
  { clear. unfold Utils.sanitizeOutput, Utils.deleteProp.
    induction ex as [|f ex IH]; intros data; simpl.
    - induction data as [|p data IHd]; simpl; [reflexivity | now rewrite <- IHd].
    - rewrite IH. clear IH.
      induction data as [|p data IHd]; simpl; [reflexivity|].
      destruct (String.eqb (fst p) f) eqn:E; simpl.
      + apply String.eqb_eq in E. rewrite E, String.eqb_refl. simpl. exact IHd.
      + rewrite String.eqb_sym, E. simpl.
        destruct (includes ex (fst p)); simpl; [exact IHd | now rewrite IHd]. }
  split; [apply Hlookup|]. split.
  - rewrite !Hkeys.
    induction data as [|p data IH]; simpl; [reflexivity|].
    destruct (includes excludeFields (fst p)) eqn:E; simpl; [exact IH|].
    now rewrite E, IH.
  - unfold Utils.sanitizeOutputDefault. now rewrite Hlookup.
Qed.

(** ** Authentication middlewares *)

Lemma split_no_separator (sep : ascii) (s : string) :
  ~ In sep (list_ascii_of_string s) -> Auth.split sep s = [s].
Proof.
  induction s as [|c s IH]; simpl; [reflexivity|].
  intros Hnot.
  destruct (Ascii.eqb c sep) eqn:E.
  - apply Ascii.eqb_eq in E. subst c. exfalso. apply Hnot. now left.
  - rewrite IH; [reflexivity | tauto].
Qed.

Lemma split_at_separator (sep : ascii) (s rest : string) :
  ~ In sep (list_ascii_of_string s) ->
  Auth.split sep (s ++ String sep rest) = s :: Auth.split sep rest.
Proof.
  induction s as [|c s IH]; simpl.
  - intros _. now rewrite Ascii.eqb_refl.
  - intros Hnot. destruct (Ascii.eqb c sep) eqn:E.
    + apply Ascii.eqb_eq in E. subst c. exfalso. apply Hnot. now left.
    + rewrite IH; [reflexivity | tauto].
Qed.

(** X19: the token the authentication middleware verifies is the second
    space-separated word of the Authorization header, whatever the first
    word is (the scheme is not compared with Bearer) and whatever follows
    the second; a header of one word has no token, and a header with two
    spaces after the scheme has the empty token, which is turned down as
    missing. *)
Theorem X19_token_is_second_word (scheme token : string) :
  ~ In " "%char (list_ascii_of_string scheme) ->
  ~ In " "%char (list_ascii_of_string token) ->
  Auth.tokenOf (Some (scheme ++ " " ++ token)) = Some token
  /\ (forall rest,
        Auth.tokenOf (Some (scheme ++ " " ++ token ++ " " ++ rest))
        = Some token)
  /\ Auth.tokenOf (Some scheme) = None
  /\ (forall verify findUnique req,
        Auth.authenticateToken verify findUnique
          (Some (scheme ++ "  " ++ token)) req
        = Throw (AppError "Token de autenticação não fornecido" 401)).
Proof.
  intros Hs Ht. unfold Auth.tokenOf.
  split; [|split; [|split]].
  - change (scheme ++ " " ++ token) with (scheme ++ String " " token).
    rewrite split_at_separator by exact Hs.
    rewrite split_no_separator by exact Ht. reflexivity.
  - intros rest.
    change (scheme ++ " " ++ token ++ " " ++ rest)
      with (scheme ++ String " " (token ++ String " " rest)).
    rewrite split_at_separator by exact Hs.
    rewrite split_at_separator by exact Ht. reflexivity.
  - rewrite split_no_separator by exact Hs. reflexivity.
  - intros verify findUnique req. unfold Auth.authenticateToken, Auth.tokenOf.
    change (scheme ++ "  " ++ token)
      with (scheme ++ String " " ("" ++ String " " token)).
    rewrite split_at_separator by exact Hs.
    rewrite (split_at_separator " " "" token) by (simpl; tauto).
    reflexivity.
Qed.

Lemma X19_token_is_second_word_witness :
  Auth.tokenOf (Some ("Basic" ++ " " ++ "abc.def.ghi")) = Some "abc.def.ghi".
Proof.
  refine (proj1 (X19_token_is_second_word "Basic" "abc.def.ghi" _ _));
    simpl; intuition discriminate.
Defined.

(** X20: the authentication middleware passes a request on exactly when
    the header has a non-empty token the verifier decodes and the stored
    user with the decoded id exists and is active; the principal it
    attaches takes id, tenant id and account type from the stored user,
    so a tenant id or account type claimed in the token is never used. *)
Theorem X20_principal_from_stored_user
    (verify : string -> Auth.Verified)
    (findUnique : string -> Result (option Auth.UserRow))
    (authorization : option string) (req req' : Request) :
  Auth.authenticateToken verify findUnique authorization req = Ok req'
  <-> exists token payload row,
        Auth.tokenOf authorization = Some token
        /\ token <> ""
        /\ verify token = Auth.Decoded payload
        /\ findUnique (userId payload) = Ok (Some row)
        /\ Auth.isActive row = true
        /\ req' = mkReq (Some (mkUser (Auth.id row) (Auth.tenantId row)
                                 (Auth.accountType row)))
                    (tenant req).
Proof.
  unfold Auth.authenticateToken. split.
  - destruct (Auth.tokenOf authorization) as [token|]; [|discriminate].
    destruct (String.eqb token "") eqn:Ee; [discriminate|].
    destruct (verify token) as [payload|msg] eqn:Hv; [|discriminate].
    destruct (findUnique (userId payload)) as [[row|]|e] eqn:Hf; simpl;
      try discriminate.
    destruct (Auth.isActive row) eqn:Ha; simpl; [|discriminate].
    intros H. injection H as <-.
    exists token, payload, row. apply String.eqb_neq in Ee. auto 10.
  - intros (token & payload & row & Ht & Hne & Hv & Hf & Ha & ->).
    rewrite Ht. apply String.eqb_neq in Hne. rewrite Hne, Hv, Hf. simpl.
    now rewrite Ha.
Qed.

(** X21: when the authentication middleware turns a request down, the
    error it passes on is an AppError of status 401, unless it is the
    very error the store threw while looking the user up: a missing
    token, any failure of the verifier (an expired token too), an unknown
    user and an inactive user are all 401. *)
Theorem X21_authentication_failures_are_401
    (verify : string -> Auth.Verified)
    (findUnique : string -> Result (option Auth.UserRow))
    (authorization : option string) (req : Request) (e : Error) :
  Auth.authenticateToken verify findUnique authorization req = Throw e ->
  (exists msg,
     e = AppError msg 401
     /\ In msg ["Token de autenticação não fornecido"; "Token inválido";
                "Usuário não encontrado ou inativo"])
  \/ (exists token payload,
        Auth.tokenOf authorization = Some token
        /\ verify token = Auth.Decoded payload
        /\ findUnique (userId payload) = Throw e).
Proof.
  unfold Auth.authenticateToken.
  destruct (Auth.tokenOf authorization) as [token|].
  - destruct (String.eqb token "").
    + intros H. injection H as <-. left. eexists. split; [reflexivity|].
      simpl. tauto.
    + destruct (verify token) as [payload|msg] eqn:Hv.
      * destruct (findUnique (userId payload)) as [[row|]|e'] eqn:Hf; simpl.
        -- destruct (Auth.isActive row); simpl; [discriminate|].
           intros H. injection H as <-. left. eexists.
           split; [reflexivity|]. simpl. tauto.
        -- intros H. injection H as <-. left. eexists.
           split; [reflexivity|]. simpl. tauto.
        -- intros H. injection H as <-. right. exists token, payload. auto.
      * intros H. injection H as <-. left. eexists.
        split; [reflexivity|]. simpl. tauto.
  - intros H. injection H as <-. left. eexists. split; [reflexivity|].
    simpl. tauto.
Qed.

Lemma X21_authentication_failures_are_401_witness :
  (exists msg,
     AppError "Token inválido" 401 = AppError msg 401
     /\ In msg ["Token de autenticação não fornecido"; "Token inválido";
                "Usuário não encontrado ou inativo"])
  \/ (exists token payload,
        Auth.tokenOf (Some "Bearer expired") = Some token
        /\ (fun _ : string => Auth.JsonWebTokenError "jwt expired") token
           = Auth.Decoded payload
        /\ (fun _ : string => Ok (@None Auth.UserRow)) (userId payload)
           = Throw (AppError "Token inválido" 401)).
Proof.
  apply (X21_authentication_failures_are_401
           (fun _ => Auth.JsonWebTokenError "jwt expired")
           (fun _ => Ok None) (Some "Bearer expired") (mkReq None None)).
  reflexivity.
Defined.

(** X22: [requireAdmin] lets a request through exactly when the
    [x-admin-key] header is a non-empty text equal to the configured
    ADMIN_KEY; with ADMIN_KEY unset or empty no request gets through, and
    every refusal is an AppError of status 403. *)
Theorem X22_requireAdmin_fails_closed
    (envAdminKey adminKey : option string) :
  (Auth.requireAdmin envAdminKey adminKey = Ok tt
   <-> exists key, adminKey = Some key /\ key <> "" /\ envAdminKey = Some key)
  /\ Auth.requireAdmin None adminKey
     = Throw (AppError "Acesso administrativo não autorizado" 403)
  /\ Auth.requireAdmin (Some "") adminKey
     = Throw (AppError "Acesso administrativo não autorizado" 403)
  /\ (Auth.requireAdmin envAdminKey adminKey <> Ok tt ->
      Auth.requireAdmin envAdminKey adminKey
      = Throw (AppError "Acesso administrativo não autorizado" 403)).
Proof.
  unfold Auth.requireAdmin. split; [|split; [|split]].
  - split.
    + destruct adminKey as [key|]; [|discriminate].
      destruct (String.eqb key "") eqn:E1; simpl; [discriminate|].
      destruct envAdminKey as [expected|]; simpl; [|discriminate].
      destruct (String.eqb key expected) eqn:E2; simpl; [|discriminate].
      intros _. exists key. apply String.eqb_neq in E1.
      apply String.eqb_eq in E2. subst. auto.
    + intros (key & -> & Hne & ->). apply String.eqb_neq in Hne.
      rewrite Hne, String.eqb_refl. reflexivity.
  - destruct adminKey as [key|]; [|reflexivity].
    now destruct (String.eqb key "").
  - destruct adminKey as [key|]; [|reflexivity].
    destruct (String.eqb key "") eqn:E; simpl; reflexivity.
  - destruct adminKey as [key|]; [|reflexivity].
    destruct (_ || _); [reflexivity|]. intros H. now elim H.
Qed.

(** ** Routes *)

Lemma chain_two_next (mw1 mw2 : Request -> Outcome) (req req' : Request) :
  Routes.chain [mw1; mw2] req = Next req' ->
  exists mid, mw1 req = Next mid /\ mw2 mid = Next req'.
Proof.
  simpl. destruct (mw1 req) as [|mid]; [discriminate|].
  destruct (mw2 mid) as [|r] eqn:E; [discriminate|].
  intros H. injection H as <-. exists mid. auto.
Qed.

Lemma checkPlanLimits_hands_on (r : ResourceType) (db : Db) (req req' : Request) :
  checkPlanLimits r db req = Next req' -> req' = req.
Proof.
  unfold checkPlanLimits, checkPlanLimitsWith.
  destruct (tenant req); [|discriminate].
  destruct (userTenantId req); [|discriminate].
  destruct (currentCountFor db s r); simpl; [|discriminate].
  destruct (negb _ && _); simpl; [discriminate|].
  intros E. now injection E.
Qed.

(** X23: which tenants reach the creating handlers.  The handlers of
    POST /projects and POST /tasks are reached only for a COMPOSITE or
    MANAGERIAL tenant; those of POST /invoices and POST /transactions
    only for a MANAGERIAL tenant and a user whose account type is
    COMPOSITE or MANAGERIAL; in each case the tenant was found active and
    unexpired. *)
Theorem X23_routes_by_plan
    (nodeEnv : option string) (db : Db) (now : Z) (req req' : Request) :
  (Routes.postProjects db now req = Next req'
   \/ App.postTasks db now req = Next req' ->
   exists t, tenant req' = Some t /\ planType t <> SIMPLE
             /\ isActive t = true /\ expired now t = false)
  /\ (App.postInvoices nodeEnv db now req = Next req'
      \/ App.postTransactions nodeEnv db now req = Next req' ->
      exists t u,
        tenant req' = Some t /\ planType t = MANAGERIAL
        /\ isActive t = true /\ expired now t = false
        /\ user req' = Some u
        /\ (accountType u = "COMPOSITE" \/ accountType u = "MANAGERIAL")).
Proof.
  assert (Hplan : forall m t,
            includes (PLAN_MODULES (planType t)) m = true ->
            (m = "projects" \/ m = "tasks" -> planType t <> SIMPLE)
            /\ (m = "billing" \/ m = "cash_flow" -> planType t = MANAGERIAL)).
  { intros m t Hin. split; intros [-> | ->];
      destruct (planType t); simpl in Hin; congruence. }
  assert (Hperm : forall mid,
            App.throwing nodeEnv
              (Auth.checkPermission ["COMPOSITE"; "MANAGERIAL"]) mid
            = Next req' ->
            mid = req'
            /\ exists u, user mid = Some u
                 /\ (accountType u = "COMPOSITE"
                     \/ accountType u = "MANAGERIAL")).
  { intros mid. unfold App.throwing, Auth.checkPermission.
    destruct (user mid) as [u|] eqn:Hu.
    - destruct (includes ["COMPOSITE"; "MANAGERIAL"] (accountType u)) eqn:Hi;
        simpl.
      + intros H. injection H as <-. split; [reflexivity|].
        exists u. split; [reflexivity|].
        apply includes_In in Hi. simpl in Hi. intuition.
      + unfold ErrorHandler.respondTo. simpl. discriminate.
    - unfold ErrorHandler.respondTo. simpl. discriminate. }
  split.
  - intros [H|H].
    + unfold Routes.postProjects in H.
      apply chain_two_next in H as (mid & H1 & H2).
      destruct (checkPlanAccess_next _ _ _ _ _ H1) as (t & Ht & _ & Ha & He & Hm).
      rewrite (checkPlanLimits_hands_on projectsRes db mid req' H2).
      exists t. repeat split; auto. apply (Hplan "projects" t Hm). now left.
    + unfold App.postTasks in H. simpl in H.
      destruct (checkPlanAccess "tasks" db now req) as [|mid] eqn:H1;
        [discriminate|].
      injection H as <-.
      destruct (checkPlanAccess_next _ _ _ _ _ H1) as (t & Ht & _ & Ha & He & Hm).
      exists t. repeat split; auto. apply (Hplan "tasks" t Hm). now right.
  - intros [H|H].
    + unfold App.postInvoices in H.
      apply chain_two_next in H as (mid & H1 & H2).
      destruct (checkPlanAccess_next _ _ _ _ _ H1) as (t & Ht & _ & Ha & He & Hm).
      destruct (Hperm mid H2) as (<- & u & Hu & Hacc).
      exists t, u. repeat split; auto. apply (Hplan "billing" t Hm). now left.
    + unfold App.postTransactions in H.
      apply chain_two_next in H as (mid & H1 & H2).
      destruct (checkPlanAccess_next _ _ _ _ _ H1) as (t & Ht & _ & Ha & He & Hm).
      destruct (Hperm mid H2) as (<- & u & Hu & Hacc).
      exists t, u. repeat split; auto. apply (Hplan "cash_flow" t Hm). now right.
Qed.

Lemma X23_routes_by_plan_witness :
  exists t u,
    tenant (mkReq (Some (mkUser "user-1" "tenant-1" "MANAGERIAL"))
              (Some (mkTenant "tenant-1" MANAGERIAL true None)))
    = Some t
    /\ planType t = MANAGERIAL
    /\ isActive t = true /\ expired 0 t = false
    /\ user (mkReq (Some (mkUser "user-1" "tenant-1" "MANAGERIAL"))
               (Some (mkTenant "tenant-1" MANAGERIAL true None)))
       = Some u
    /\ (accountType u = "COMPOSITE" \/ accountType u = "MANAGERIAL").
Proof.
  apply (proj2 (X23_routes_by_plan None
                  (mkDb true [mkTenant "tenant-1" MANAGERIAL true None]
                     [] [] [] [])
                  0
                  (mkReq (Some (mkUser "user-1" "tenant-1" "MANAGERIAL")) None)
                  (mkReq (Some (mkUser "user-1" "tenant-1" "MANAGERIAL"))
                     (Some (mkTenant "tenant-1" MANAGERIAL true None))))).
  left. reflexivity.
Defined.

(** ** Administration routes *)

(** X24: the update PATCH /tenants/:id sends to the store writes at most
    [isActive], [expiresAt] and [planType], never another member of the
    body.  [isActive] is written whenever the body has it, false and null
    included; [expiresAt] and [planType] are written only when truthy, so
    a body with [expiresAt] null (or empty) leaves the stored expiry
    untouched: an expiry once set cannot be removed through this route. *)
Theorem X24_patch_tenant_data (toDate : JsVal -> JsVal) (body : Props) :
  (forall k, k <> "isActive" -> k <> "expiresAt" -> k <> "planType" ->
             lookup k (Admin.patchTenantData toDate body) = None)
  /\ lookup "isActive" (Admin.patchTenantData toDate body)
     = match lookup "isActive" body with
       | Some JUndefined | None => None
       | Some v => Some v
       end
  /\ lookup "expiresAt" (Admin.patchTenantData toDate body)
     = (if truthy (Admin.member body "expiresAt")
        then Some (toDate (Admin.member body "expiresAt")) else None)
  /\ lookup "planType" (Admin.patchTenantData toDate body)
     = (if truthy (Admin.member body "planType")
        then Some (Admin.member body "planType") else None)
  /\ (lookup "expiresAt" body = Some JNull ->
      lookup "expiresAt" (Admin.patchTenantData toDate body) = None).
Proof.
  unfold Admin.patchTenantData, Admin.spreadIf.
  set (ia := Admin.member body "isActive").
  set (ea := Admin.member body "expiresAt").
  set (pt := Admin.member body "planType").
  assert (Hia : match lookup "isActive" body with
                | Some JUndefined | None => None
                | Some v => Some v
                end
                = if negb (Admin.isUndefined ia) then Some ia else None).
  { unfold ia, Admin.member. destruct (lookup "isActive" body) as [v|];
      [destruct v|]; reflexivity. }
  rewrite Hia. clear Hia.
  split; [|split; [|split; [|split]]].
  - intros k H1 H2 H3.
    destruct (truthy pt), (truthy ea), (negb (Admin.isUndefined ia));
      rewrite ?lookup_assign_other by assumption; simpl;
      repeat match goal with
             | |- context [String.eqb k ?s] =>
                 let E := fresh in
                 destruct (String.eqb k s) eqn:E;
                 [apply String.eqb_eq in E; congruence|]
             end; reflexivity.
  - destruct (truthy pt), (truthy ea), (negb (Admin.isUndefined ia));
      reflexivity.
  - destruct (truthy pt), (truthy ea), (negb (Admin.isUndefined ia));
      reflexivity.
  - destruct (truthy pt), (truthy ea), (negb (Admin.isUndefined ia));
      reflexivity.
  - intros Hnull.
    assert (Hea : truthy ea = false)
      by (unfold ea, Admin.member; now rewrite Hnull).
    rewrite Hea.
    destruct (truthy pt), (negb (Admin.isUndefined ia)); reflexivity.
Qed.

(** X25: the administration login issues a token exactly when the body
    passes the schema (e-mail, password of at least six characters, key;
    all strings), the submitted key equals the configured ADMIN_KEY and
    the e-mail and password equal the configured ones, where an unset or
    empty ADMIN_EMAIL stands for admin@example.com and an unset or empty
    ADMIN_PASSWORD for admin123.  With ADMIN_KEY unset, or with a
    configured password of fewer than six characters, no login succeeds.
    A body the schema rejects ends in a ZodError; every other refusal is
    an AppError of status 401. *)
Theorem X25_admin_login
    (formats : Zod.Formats)
    (envAdminKey envAdminEmail envAdminPassword : option string)
    (sign : string) (body : JsVal) :
  (forall token,
     Admin.adminLogin formats envAdminKey envAdminEmail envAdminPassword
       sign body = Zod.Resolved token
     <-> token = sign
         /\ exists email password adminKey,
              Admin.parseAdminLogin formats body
              = Some (email, password, adminKey)
              /\ envAdminKey = Some adminKey
              /\ email = Admin.envOr envAdminEmail "admin@example.com"
              /\ password = Admin.envOr envAdminPassword "admin123")
  /\ (forall token,
        Admin.adminLogin formats None envAdminEmail envAdminPassword
          sign body <> Zod.Resolved token)
  /\ (forall configured token,
        envAdminPassword = Some configured ->
        configured <> "" ->
        Zod.utf16Length configured < 6 ->
        Admin.adminLogin formats envAdminKey envAdminEmail envAdminPassword
          sign body <> Zod.Resolved token)
  /\ (Admin.adminLogin formats envAdminKey envAdminEmail envAdminPassword
        sign body = Zod.RejectedZod
      <-> Admin.parseAdminLogin formats body = None)
  /\ (forall e,
        Admin.adminLogin formats envAdminKey envAdminEmail envAdminPassword
          sign body = Zod.Rejected e ->
        exists msg, e = AppError msg 401)
  /\ (Zod.isEmail formats "admin@example.com" = true ->
      forall key,
        Admin.adminLogin formats (Some key) None None sign
          (JObj [("email", JStr "admin@example.com");
                 ("password", JStr "admin123");
                 ("adminKey", JStr key)])
        = Zod.Resolved sign).
Proof.
  assert (Hparsed : forall email password adminKey token,
    Zod.settle (Admin.adminLoginParsed envAdminKey envAdminEmail
                  envAdminPassword sign email password adminKey)
    = Zod.Resolved token
    <-> token = sign
        /\ envAdminKey = Some adminKey
        /\ email = Admin.envOr envAdminEmail "admin@example.com"
        /\ password = Admin.envOr envAdminPassword "admin123").
  { intros email password adminKey token. unfold Admin.adminLoginParsed.
    split.
    - destruct envAdminKey as [expected|]; simpl; [|discriminate].
      destruct (String.eqb adminKey expected) eqn:Ek; simpl; [|discriminate].
      destruct (String.eqb email _) eqn:Ee; simpl; [|discriminate].
      destruct (String.eqb password _) eqn:Ep; simpl; [|discriminate].
      intros H. injection H as <-.
      apply String.eqb_eq in Ek, Ee, Ep. subst. auto.
    - intros (-> & -> & -> & ->). simpl. now rewrite !String.eqb_refl. }
  assert (Hlong : forall email password adminKey,
    Admin.parseAdminLogin formats body = Some (email, password, adminKey) ->
    6 <= Zod.utf16Length password).
  { intros email password adminKey. unfold Admin.parseAdminLogin.
    destruct body; try discriminate.
    destruct (Zod.stringMember props "email"); [|discriminate].
    destruct (Zod.stringMember props "password"); [|discriminate].
    destruct (Zod.stringMember props "adminKey"); [|discriminate].
    destruct (Zod.isEmail formats s && (6 <=? Zod.utf16Length s0)) eqn:E;
      [|discriminate].
    intros H. injection H as <- <- <-.
    apply andb_true_iff in E as [_ E]. now apply Z.leb_le in E. }
  split; [|split; [|split; [|split; [|split]]]].
  - intros token. unfold Admin.adminLogin.
    destruct (Admin.parseAdminLogin formats body) as [[[email password] adminKey]|].
    + rewrite Hparsed. split.
      * intros (-> & Hk & He & Hp). split; [reflexivity|].
        exists email, password, adminKey. auto.
      * intros (-> & e' & p' & k' & Heq & Hk & He & Hp).
        injection Heq as <- <- <-. auto.
    + split; [discriminate|].
      intros (_ & e' & p' & k' & Heq & _). discriminate.
  - intros token. unfold Admin.adminLogin.
    destruct (Admin.parseAdminLogin formats body) as [[[email password] adminKey]|];
      [|discriminate].
    unfold Admin.adminLoginParsed. simpl. discriminate.
  - intros configured token Hconf Hne Hshort. unfold Admin.adminLogin.
    destruct (Admin.parseAdminLogin formats body)
      as [[[email password] adminKey]|] eqn:Hparse; [|discriminate].
    intros H. apply Hparsed in H as (_ & _ & _ & Hp).
    pose proof (Hlong _ _ _ eq_refl) as Hlen.
    rewrite Hconf in Hp. unfold Admin.envOr in Hp.
    apply String.eqb_neq in Hne. rewrite Hne in Hp. subst password. lia.
  - unfold Admin.adminLogin.
    destruct (Admin.parseAdminLogin formats body) as [[[email password] adminKey]|].
    + split; [|discriminate].
      destruct (Admin.adminLoginParsed _ _ _ _ _ _ _); discriminate.
    + tauto.
  - intros e. unfold Admin.adminLogin.
    destruct (Admin.parseAdminLogin formats body) as [[[email password] adminKey]|];
      [|discriminate].
    unfold Admin.adminLoginParsed.
    destruct (negb _); [intros H; injection H as <-; eauto|].
    destruct (_ || _); [intros H; injection H as <-; eauto | discriminate].
  - intros Hmail key. unfold Admin.adminLogin, Admin.parseAdminLogin.
    unfold Zod.stringMember. cbn [lookup].
    change (String.eqb "email" "email") with true.
    change (String.eqb "password" "email") with false.
    change (String.eqb "password" "password") with true.
    change (String.eqb "adminKey" "email") with false.
    change (String.eqb "adminKey" "password") with false.
    change (String.eqb "adminKey" "adminKey") with true.
    cbv beta iota. rewrite Hmail.
    change (6 <=? Zod.utf16Length "admin123") with true.
    cbv beta iota. unfold Admin.adminLoginParsed, Admin.envOr.
    cbn [andb]. cbv beta iota. rewrite !String.eqb_refl. reflexivity.
Qed.

(** ** Client-side checks *)

(** X26: the client's copy of the plan tables agrees with the server's:
    for a logged-in user the client's [canAccessModule] answers as the
    server's [canAccessModule] for the tenant's plan and every module, and
    the user and client ceilings the client's [getPlanInfo] shows are the
    server's ceilings. *)
Theorem X26_client_tables_agree_with_server
    (accountType : string) (t : ClientAuth.ClientTenant) :
  (forall m,
     ClientAuth.canAccessModule
       (Some (ClientAuth.mkClientUser accountType (Some t))) m
     = canAccessModule (ClientAuth.planType t) m)
  /\ exists info,
       ClientAuth.getPlanInfo
         (Some (ClientAuth.mkClientUser accountType (Some t))) = Some info
       /\ ClientAuth.maxUsers info
          = maxUsers (PLAN_LIMITS (ClientAuth.planType t))
       /\ ClientAuth.maxClients info
          = maxClients (PLAN_LIMITS (ClientAuth.planType t)).
Proof.
  split.
  - intros m. unfold ClientAuth.canAccessModule, canAccessModule. simpl.
    now destruct (ClientAuth.planType t).
  - unfold ClientAuth.getPlanInfo. simpl. eexists. split; [reflexivity|].
    destruct (ClientAuth.planType t); split; reflexivity.
Qed.

(** X27: for the same tenant state and the same clock, the client's
    [isAccountValid] holds exactly when the server's module-access check
    does not answer TENANT_INACTIVE or PLAN_EXPIRED: both treat the expiry
    instant itself as still valid. *)
Theorem X27_client_validity_agrees_with_server
    (m : string) (db : Db) (now : Z) (req : Request) (tid : string)
    (t : TenantRow) (accountType : string) :
  userTenantId req = Some tid ->
  tenant_findUnique db tid = Ok (Some t) ->
  (ClientAuth.isAccountValid now
     (Some (ClientAuth.mkClientUser accountType
              (Some (ClientAuth.mkClientTenant (planType t) (isActive t)
                       (expiresAt t))))) = true
   <-> codeOf (checkPlanAccess m db now req) <> Some (JStr "TENANT_INACTIVE")
       /\ codeOf (checkPlanAccess m db now req) <> Some (JStr "PLAN_EXPIRED")).
Proof.
  intros Hu Hf. unfold ClientAuth.isAccountValid, checkPlanAccess. simpl.
  rewrite Hu, Hf. simpl. unfold expired.
  destruct (isActive t); simpl.
  - destruct (expiresAt t) as [e|]; simpl.
    + destruct (now >? e); simpl.
      * split; [discriminate | intros [_ H]; now elim H].
      * destruct (includes _ m); simpl; split; auto; split; discriminate.
    + destruct (includes _ m); simpl; split; auto; split; discriminate.
  - split; [discriminate | intros [H _]; now elim H].
Qed.

Lemma X27_client_validity_agrees_with_server_witness :
  ClientAuth.isAccountValid 1000
    (Some (ClientAuth.mkClientUser "SIMPLE"
             (Some (ClientAuth.mkClientTenant MANAGERIAL true (Some 1000)))))
  = true
  <-> codeOf (checkPlanAccess "billing"
                (Samples.dbWith Samples.expiredTenant 0) 1000
                Samples.authenticated)
      <> Some (JStr "TENANT_INACTIVE")
      /\ codeOf (checkPlanAccess "billing"
                   (Samples.dbWith Samples.expiredTenant 0) 1000
                   Samples.authenticated)
         <> Some (JStr "PLAN_EXPIRED").
Proof.
  apply (X27_client_validity_agrees_with_server "billing"
           (Samples.dbWith Samples.expiredTenant 0) 1000
           Samples.authenticated "tenant-1" Samples.expiredTenant "SIMPLE");
    reflexivity.
Defined.

(** X28: in the client's [hasPermission] the roles are nested: every
    permission of a USER is one of an ADMIN, and every permission of an
    ADMIN one of an OWNER, who has them all; a user whose account type is
    one of the three values the server stores (SIMPLE, COMPOSITE,
    MANAGERIAL) has no permission at all, and neither has a visitor who is
    not logged in. *)
Theorem X28_client_permissions
    (tenant : option ClientAuth.ClientTenant) (permission : string) :
  (ClientAuth.hasPermission (Some (ClientAuth.mkClientUser "USER" tenant))
     permission = true ->
   ClientAuth.hasPermission (Some (ClientAuth.mkClientUser "ADMIN" tenant))
     permission = true)
  /\ ClientAuth.hasPermission (Some (ClientAuth.mkClientUser "OWNER" tenant))
       permission = true
  /\ (forall p : PlanType,
        ClientAuth.hasPermission
          (Some (ClientAuth.mkClientUser (planName p) tenant)) permission
        = false)
  /\ ClientAuth.hasPermission None permission = false.
Proof.
  assert (HU : ClientAuth.hasPermission
                 (Some (ClientAuth.mkClientUser "USER" tenant)) permission
               = includes ["VIEW_DASHBOARD"; "VIEW_CLIENTS"; "CREATE_CLIENT";
                           "VIEW_PROJECTS"] permission) by reflexivity.
  assert (HA : ClientAuth.hasPermission
                 (Some (ClientAuth.mkClientUser "ADMIN" tenant)) permission
               = negb (includes ["DELETE_TENANT"; "MANAGE_BILLING"] permission))
    by reflexivity.
  split; [|split; [|split]].
  - rewrite HU, HA. intros H. apply includes_In in H. simpl in H.
    repeat (destruct H as [H|H]; [subst permission; reflexivity|]).
    contradiction.
  - reflexivity.
  - intros p. destruct p; reflexivity.
  - reflexivity.
Qed.

(** ** Login and registration *)

Lemma andThen_Ok_inv {S A B} (m : Audit.Async S A) (k : A -> Audit.Async S B)
    (w w' : Audit.World S) (b : B) :
  Audit.andThen m k w = (Ok b, w') ->
  exists a w1, m w = (Ok a, w1) /\ k a w1 = (Ok b, w').
Proof.
  unfold Audit.andThen. destruct (m w) as [[a|e] w1]; [|discriminate].
  intros H. exists a, w1. auto.
Qed.

Lemma andThen_run {S A B} (m : Audit.Async S A) (k : A -> Audit.Async S B)
    (w : Audit.World S) :
  Audit.andThen m k w
  = match m w with
    | (Ok a, w') => k a w'
    | (Throw e, w') => (Throw e, w')
    end.
Proof. reflexivity. Qed.

Lemma login_run {S : Type} (formats : Zod.Formats) (ops : AuthRoutes.Ops S)
    (now : Z) (body : JsVal) (w : Audit.World S)
    (givenEmail givenPassword : string) (givenTenantId : option string) :
  AuthRoutes.parseLogin formats body
  = Some (givenEmail, givenPassword, givenTenantId) ->
  AuthRoutes.login formats ops now body w
  = (Zod.settle
       (fst (AuthRoutes.loginParsed ops now givenEmail givenPassword
               givenTenantId w)),
     snd (AuthRoutes.loginParsed ops now givenEmail givenPassword
            givenTenantId w)).
Proof.
  intros H. unfold AuthRoutes.login. rewrite H.
  now destruct (AuthRoutes.loginParsed _ _ _ _ _ w).
Qed.

Lemma register_run {S : Type} (formats : Zod.Formats) (ops : AuthRoutes.Ops S)
    (body : JsVal) (w : Audit.World S)
    (email password tenantId accountType : string) :
  AuthRoutes.parseRegister formats body
  = Some (email, password, tenantId, accountType) ->
  AuthRoutes.register formats ops body w
  = (Zod.settle
       (fst (AuthRoutes.registerParsed ops email password tenantId
               accountType w)),
     snd (AuthRoutes.registerParsed ops email password tenantId
            accountType w)).
Proof.
  intros H. unfold AuthRoutes.register. rewrite H.
  now destruct (AuthRoutes.registerParsed _ _ _ _ _ w).
Qed.

(** A password of fewer than six characters fails each of the schemas. *)
Lemma short_password_rejected (formats : Zod.Formats) (members : Props)
    (text : string) :
  lookup "password" members = Some (JStr text) ->
  Zod.utf16Length text < 6 ->
  AuthRoutes.parseLogin formats (JObj members) = None
  /\ AuthRoutes.parseRegister formats (JObj members) = None.
Proof.
  intros Hp Hshort.
  assert (Hleb : (6 <=? Zod.utf16Length text) = false)
    by (apply Z.leb_gt; lia).
  unfold AuthRoutes.parseLogin, AuthRoutes.parseRegister, Zod.stringMember.
  rewrite Hp. split.
  - destruct (lookup "email" members) as [[]|]; try reflexivity.
    destruct (Zod.optionalStringMember members "tenantId"); [|reflexivity].
    now rewrite Hleb, andb_false_r.
  - destruct (lookup "email" members) as [[]|]; try reflexivity.
    destruct (lookup "tenantId" members) as [[]|]; try reflexivity.
    destruct (lookup "accountType" members) as [[]|]; try reflexivity.
    now rewrite Hleb, andb_false_r.
Qed.

(** X29: a body that fails the login schema (a password of fewer than six
    characters, for one) ends in a ZodError before any lookup, the store
    untouched.  For a body that passes it and a user found, the login is
    answered with a token only if the user is active, the tenant is active
    and unexpired and the comparison accepts the password, and the token
    is signed over the stored user's id, tenant id and account type.  The
    account state is looked at before the password: for an inactive user,
    an inactive tenant or an expired tenant the outcome is the 403 refusal
    whether the password is right or wrong. *)
Theorem X29_login
    (S : Type) (formats : Zod.Formats) (ops : AuthRoutes.Ops S) (now : Z)
    (body : JsVal)
    (givenEmail givenPassword : string) (givenTenantId : option string)
    (w w1 : Audit.World S) (user : AuthRoutes.LoginUser) :
  AuthRoutes.parseLogin formats body
  = Some (givenEmail, givenPassword, givenTenantId) ->
  AuthRoutes.findFirst ops givenEmail (AuthRoutes.tenantFilter givenTenantId) w
  = (Ok (Some user), w1) ->
  (forall answer w',
     AuthRoutes.login formats ops now body w = (Zod.Resolved answer, w') ->
     AuthRoutes.isActive user = true
     /\ isActive (AuthRoutes.tenant user) = true
     /\ lapsed now (AuthRoutes.tenant user) = false
     /\ AuthRoutes.compare ops givenPassword (AuthRoutes.passwordHash user)
        = true
     /\ lookup "token" answer
        = Some (JStr (AuthRoutes.sign ops
                        (mkUser (AuthRoutes.id user)
                           (AuthRoutes.tenantId user)
                           (AuthRoutes.accountType user)))))
  /\ (AuthRoutes.isActive user = false ->
      AuthRoutes.login formats ops now body w
      = (Zod.Rejected (AppError "Usuário inativo" 403), w1))
  /\ (AuthRoutes.isActive user = true ->
      isActive (AuthRoutes.tenant user) = false ->
      AuthRoutes.login formats ops now body w
      = (Zod.Rejected (AppError "Empresa inativa" 403), w1))
  /\ (AuthRoutes.isActive user = true ->
      isActive (AuthRoutes.tenant user) = true ->
      lapsed now (AuthRoutes.tenant user) = true ->
      AuthRoutes.login formats ops now body w
      = (Zod.Rejected (AppError "Assinatura expirada" 403), w1))
  /\ (forall other,
        AuthRoutes.parseLogin formats other = None ->
        AuthRoutes.login formats ops now other w = (Zod.RejectedZod, w))
  /\ (forall members text,
        lookup "password" members = Some (JStr text) ->
        Zod.utf16Length text < 6 ->
        AuthRoutes.login formats ops now (JObj members) w
        = (Zod.RejectedZod, w)).
Proof.
  intros Hparse Hfind.
  rewrite (login_run formats ops now body w _ _ _ Hparse).
  unfold AuthRoutes.loginParsed. rewrite andThen_run, Hfind.
  split; [|split; [|split; [|split; [|split]]]].
  - intros answer w'.
    destruct (AuthRoutes.isActive user); simpl; [|discriminate].
    destruct (isActive (AuthRoutes.tenant user)); simpl; [|discriminate].
    destruct (lapsed now (AuthRoutes.tenant user)); [discriminate|].
    destruct (AuthRoutes.compare ops givenPassword _); simpl; [|discriminate].
    rewrite andThen_run.
    destruct (AuthRoutes.updateLastLogin ops _ now w1) as [[[]|e] w2];
      simpl; [|discriminate].
    rewrite andThen_run, createAuditLog_run.
    destruct (AuthRoutes.auditLogCreate ops _ w2) as [[[]|e] w3];
      unfold Audit.ret; simpl; intros H; injection H as <- _; auto.
  - intros ->. reflexivity.
  - intros -> ->. reflexivity.
  - intros -> -> ->. reflexivity.
  - intros other Hnone. unfold AuthRoutes.login. now rewrite Hnone.
  - intros members text Hp Hshort. unfold AuthRoutes.login.
    now rewrite (proj1 (short_password_rejected formats members text Hp Hshort)).
Qed.

Lemma X29_login_witness :
  AuthRoutes.login AuthRoutes.sampleFormats AuthRoutes.sampleOps 2000
    AuthRoutes.sampleLoginBody (Audit.mkWorld tt [])
  = (Zod.Rejected (AppError "Assinatura expirada" 403), Audit.mkWorld tt []).
Proof.
  refine (proj1 (proj2 (proj2 (proj2
    (X29_login unit AuthRoutes.sampleFormats AuthRoutes.sampleOps 2000
       AuthRoutes.sampleLoginBody "ana@example.com" "not-her-password" None
       (Audit.mkWorld tt []) (Audit.mkWorld tt []) AuthRoutes.sampleUser
       eq_refl eq_refl)))) eq_refl eq_refl eq_refl).
Defined.

(** X30: a body that fails the registration schema (tenant id not a UUID,
    account type not one of SIMPLE, COMPOSITE and MANAGERIAL, password of
    fewer than six characters, ...) ends in a ZodError before any lookup.
    For a body that passes it, the registration goes through whenever no
    user with that e-mail exists in the tenant, the tenant exists and is
    active, and the insert resolves: the tenant's expiry is not looked at,
    the account type asked for is stored, and a failing audit append
    changes nothing of the answer.  An inactive tenant gives 403. *)
Theorem X30_register
    (S : Type) (formats : Zod.Formats) (ops : AuthRoutes.Ops S)
    (body : JsVal) (email password tenantId accountType : string)
    (w w1 w2 : Audit.World S) (t : TenantRow) :
  AuthRoutes.parseRegister formats body
  = Some (email, password, tenantId, accountType) ->
  AuthRoutes.findFirst ops email (Some tenantId) w = (Ok None, w1) ->
  AuthRoutes.findTenant ops tenantId w1 = (Ok (Some t), w2) ->
  (isActive t = false ->
   AuthRoutes.register formats ops body w
   = (Zod.Rejected (AppError "Tenant inativo" 403), w2))
  /\ (isActive t = true ->
      forall newId w3,
        AuthRoutes.createUser ops email (AuthRoutes.hash ops password)
          tenantId accountType w2 = (Ok newId, w3) ->
        fst (AuthRoutes.register formats ops body w)
        = Zod.Resolved
            [("message", JStr "Usuário criado com sucesso");
             ("user", JObj [("id", JStr newId);
                            ("email", JStr email);
                            ("accountType", JStr accountType)])])
  /\ (Zod.isUuid formats tenantId = true
      /\ In accountType ["SIMPLE"; "COMPOSITE"; "MANAGERIAL"]
      /\ 6 <= Zod.utf16Length password)
  /\ (forall other,
        AuthRoutes.parseRegister formats other = None ->
        AuthRoutes.register formats ops other w = (Zod.RejectedZod, w)).
Proof.
  intros Hparse Hfind Hten.
  rewrite (register_run formats ops body w _ _ _ _ Hparse).
  unfold AuthRoutes.registerParsed.
  rewrite andThen_run, Hfind, andThen_run, Hten.
  split; [|split; [|split]].
  - intros ->. reflexivity.
  - intros -> newId w3 Hcreate. simpl.
    rewrite andThen_run, Hcreate, andThen_run, createAuditLog_run.
    destruct (AuthRoutes.auditLogCreate ops _ w3) as [[[]|e] w4]; reflexivity.
  - revert Hparse. unfold AuthRoutes.parseRegister.
    destruct body; try discriminate.
    destruct (Zod.stringMember props "email"); [|discriminate].
    destruct (Zod.stringMember props "password"); [|discriminate].
    destruct (Zod.stringMember props "tenantId"); [|discriminate].
    destruct (Zod.stringMember props "accountType"); [|discriminate].
    destruct (_ && _) eqn:E; [|discriminate].
    intros H. injection H as <- <- <- <-.
    apply andb_true_iff in E as [E Hacc].
    apply andb_true_iff in E as [E Huuid].
    apply andb_true_iff in E as [_ Hlen].
    split; [exact Huuid|]. split; [now apply includes_In|].
    now apply Z.leb_le.
  - intros other Hnone. unfold AuthRoutes.register. now rewrite Hnone.
Qed.

Lemma X30_register_witness :
  fst (AuthRoutes.register AuthRoutes.sampleFormats AuthRoutes.sampleOps
         AuthRoutes.sampleRegisterBody (Audit.mkWorld tt []))
  = Zod.Resolved
      [("message", JStr "Usuário criado com sucesso");
       ("user", JObj [("id", JStr "user-2");
                      ("email", JStr "bia@example.com");
                      ("accountType", JStr "MANAGERIAL")])].
Proof.
  refine (proj1 (proj2
    (X30_register unit AuthRoutes.sampleFormats AuthRoutes.sampleOps
       AuthRoutes.sampleRegisterBody "bia@example.com" "secret2"
       AuthRoutes.sampleTenantId "MANAGERIAL"
       (Audit.mkWorld tt []) (Audit.mkWorld tt []) (Audit.mkWorld tt [])
       (mkTenant AuthRoutes.sampleTenantId SIMPLE true (Some 1000))
       eq_refl eq_refl eq_refl))
    eq_refl "user-2" (Audit.mkWorld tt []) eq_refl).
Defined.
